(** * Journiv backend: weather proxy, scoped cache and admin invariant

    A shallow embedding of
      - [app/services/weather_service.py]   (class [WeatherService]),
      - [app/schemas/weather.py]            (the pydantic model [WeatherData]),
      - [app/api/v1/endpoints/weather.py]   (the [/weather/fetch] endpoint),
      - [alembic/versions/abc123def456_add_user_role_column.py] ([upgrade]),
    together with the two collaborators whose code is not part of the
    sources at hand and which are modelled from the specification: the
    [ScopedCache] and the admin invariant enforcer.

    Python values that come out of [response.json()] are modelled by the
    type [json]; Python floats are IEEE 754 binary64 numbers, modelled by
    Rocq's primitive floats; a Python [str] is held as its UTF-8 encoding;
    Python exceptions are modelled by the type [exn] and a small error
    monad [result]. *)

From Stdlib Require Import ZArith Floats SpecFloat.
From stdpp Require Import gmap strings list fin_maps pretty.

Open Scope Z_scope.
Set Warnings "-register-all".

(* ===================================================================== *)
(** ** Python values, exceptions and the error monad                      *)
(* ===================================================================== *)

(** What [json.loads] can return. A [JObj] lists the items of a [dict];
    [dict_get] reads the first binding of a key. *)
Inductive json : Type :=
| JNull
| JBool (b : bool)
| JInt (n : Z)
| JFloat (x : float)
| JStr (s : string)
| JList (l : list json)
| JObj (kv : list (string * json)).

(** The exception classes that the modelled code raises, catches or lets
    through. [ValidationError] (pydantic) and [JSONDecodeError] are
    subclasses of [ValueError]; [HTTPStatusError] is a subclass of
    [httpx.HTTPError], and [HTTPError] stands for its other subclasses
    (timeouts, connection failures). *)
Inductive exn : Type :=
| ValueError (msg : string)
| ValidationError
| JSONDecodeError (msg : string)
| TypeError
| KeyError
| IndexError
| AttributeError
| OverflowError
| HTTPStatusError (status_code : Z) (text : string)
| HTTPError (msg : string)
| HTTPException (status_code : Z) (detail : string).

Inductive result (A : Type) : Type :=
| Returned (a : A)
| Raised (e : exn).
Arguments Returned {A} a.
Arguments Raised {A} e.

Definition bind {A B : Type} (r : result A) (k : A -> result B) : result B :=
  match r with
  | Returned a => k a
  | Raised e => Raised e
  end.

Notation "x <- e ;; k" := (bind e (fun x => k))
  (at level 100, e at next level, right associativity).

(** [isinstance(e, ValueError)]. *)
Definition is_ValueError (e : exn) : bool :=
  match e with
  | ValueError _ | ValidationError | JSONDecodeError _ => true
  | _ => false
  end.

(** [str(e)] for the subclasses of [ValueError] that carry a message. *)
Definition exn_str (e : exn) : string :=
  match e with
  | ValueError msg | JSONDecodeError msg | HTTPError msg => msg
  | HTTPStatusError _ text => text
  | HTTPException _ detail => detail
  | ValidationError => "validation error"
  | TypeError => "TypeError"
  | KeyError => "KeyError"
  | IndexError => "IndexError"
  | AttributeError => "AttributeError"
  | OverflowError => "OverflowError"
  end.

Fixpoint dict_get (k : string) (kv : list (string * json)) : option json :=
  match kv with
  | [] => None
  | (k', v) :: rest => if String.eqb k k' then Some v else dict_get k rest
  end.

(** [v.get(k, default)]: only a [dict] has a [get] method. *)
Definition py_get (v : json) (k : string) (default : json) : result json :=
  match v with
  | JObj kv => Returned (match dict_get k kv with Some x => x | None => default end)
  | _ => Raised AttributeError
  end.

(** The number of bytes of the UTF-8 character that starts with the byte
    [c], and the first [n] bytes of a string. *)
Definition utf8_width (c : Ascii.ascii) : nat :=
  let n := Z.of_nat (Ascii.nat_of_ascii c) in
  if n <? 192 then 1%nat else if n <? 224 then 2%nat
  else if n <? 240 then 3%nat else 4%nat.

Fixpoint take_bytes (n : nat) (s : string) : string :=
  match n, s with
  | S k, String c rest => String c (take_bytes k rest)
  | _, _ => EmptyString
  end.

(** [v[0]]: the first element of a list, the first character of a [str].
    The keys of a dict that comes from JSON are strings, so the key [0] is
    never present. *)
Definition py_index0 (v : json) : result json :=
  match v with
  | JList (x :: _) => Returned x
  | JList [] => Raised IndexError
  | JStr (String c rest) =>
      Returned (JStr (take_bytes (utf8_width c) (String c rest)))
  | JStr EmptyString => Raised IndexError
  | JObj _ => Raised KeyError
  | JNull | JBool _ | JInt _ | JFloat _ => Raised TypeError
  end.

(* ===================================================================== *)
(** ** Python numbers                                                     *)
(* ===================================================================== *)

(** Quotient of [a] by [b > 0] rounded to the nearest integer, ties to
    the even one. *)
Definition round_half_even_div (a b : Z) : Z :=
  let q := a / b in
  let r := a mod b in
  match 2 * r ?= b with
  | Lt => q
  | Gt => q + 1
  | Eq => if Z.even q then q else q + 1
  end.

(** [round(x, ndigits)] on a float, for [ndigits >= 0], as CPython computes
    it: the exact binary value of [x] is rounded half-even to [ndigits]
    decimals, and the decimal obtained is converted back to the nearest
    float. NaN, the infinities and the zeros round to themselves. *)
Definition py_round (ndigits : Z) (x : float) : float :=
  match Prim2SF x with
  | S754_finite s m e =>
      let p := 10 ^ ndigits in
      let n := if 0 <=? e then Zpos m * 2 ^ e * p
               else round_half_even_div (Zpos m * p) (2 ^ (- e)) in
      match n with
      | Zpos n' =>
          SF2Prim (SFdiv prec emax (S754_finite s n' 0)
                                   (S754_finite false (Z.to_pos p) 0))
      | _ => SF2Prim (S754_zero s)
      end
  | _ => x
  end.

(** [float(n)] for an int, correctly rounded; out of range it is an
    infinity here (Python raises). *)
Definition float_of_Z (n : Z) : float :=
  SF2Prim (binary_normalize prec emax n 0 false).

(** [a / b] on ints, for [b > 0]: the correctly rounded quotient, or
    [OverflowError] when it is too large for a float. *)
Definition int_truediv (a : Z) (b : positive) : result float :=
  match a with
  | Z0 => Returned 0%float
  | Zpos m | Zneg m =>
      match SFdiv prec emax (S754_finite (a <? 0) m 0) (S754_finite false b 0) with
      | S754_infinity _ => Raised OverflowError
      | q => Returned (SF2Prim q)
      end
  end.

(** The integer a float denotes, when it denotes one. *)
Definition float_to_Z (x : float) : option Z :=
  match Prim2SF x with
  | S754_zero _ => Some 0
  | S754_finite s m e =>
      let v := if 0 <=? e then Some (Zpos m * 2 ^ e)
               else if Zpos m mod 2 ^ (- e) =? 0 then Some (Zpos m / 2 ^ (- e))
               else None in
      if s then Z.opp <$> v else v
  | _ => None
  end.

(** [(temp_c * 9/5) + 32] on whatever [main.get("temp")] returned. On a
    [str] or a [list], [* 9] repeats the sequence and [/ 5] then raises
    [TypeError]; on a [dict], [* 9] raises it. A [bool] is an [int]. *)
Definition celsius_to_fahrenheit (temp_c : json) : result float :=
  match temp_c with
  | JFloat x => Returned (x * 9 / 5 + 32)%float
  | JInt n => q <- int_truediv (n * 9) 5 ;; Returned (q + 32)%float
  | JBool b => q <- int_truediv (Z.b2z b * 9) 5 ;; Returned (q + 32)%float
  | JNull | JStr _ | JList _ | JObj _ => Raised TypeError
  end.

(** [round(v, 1)]: a float is rounded, an int is returned as it is. *)
Definition py_round1 (v : json) : result json :=
  match v with
  | JFloat x => Returned (JFloat (py_round 1 x))
  | JInt n => Returned (JInt n)
  | JBool b => Returned (JInt (Z.b2z b))
  | JNull | JStr _ | JList _ | JObj _ => Raised TypeError
  end.

(** The UTF-8 encoding of a code point. *)
Definition utf8_encode (code_point : Z) : string :=
  let byte (n : Z) := Ascii.ascii_of_nat (Z.to_nat n) in
  let cont (n : Z) := byte (128 + n mod 64) in
  if code_point <? 128 then
    String (byte code_point) EmptyString
  else if code_point <? 2048 then
    String (byte (192 + code_point / 64)) (String (cont code_point) EmptyString)
  else if code_point <? 65536 then
    String (byte (224 + code_point / 4096))
      (String (cont (code_point / 64)) (String (cont code_point) EmptyString))
  else
    String (byte (240 + code_point / 262144))
      (String (cont (code_point / 4096))
         (String (cont (code_point / 64)) (String (cont code_point) EmptyString))).

(** The characters for which [str.isspace()] holds, the white space that
    [str.strip()] removes: the ASCII ones (tab to carriage return, the four
    separators and the space), U+0085, U+00A0, U+1680, U+2000 to U+200A,
    U+2028, U+2029, U+202F, U+205F and U+3000. *)
Definition whitespace_code_points : list Z :=
  [ 9; 10; 11; 12; 13; 28; 29; 30; 31; 32; 133; 160; 5760;
    8192; 8193; 8194; 8195; 8196; 8197; 8198; 8199; 8200; 8201; 8202;
    8232; 8233; 8239; 8287; 12288 ].

Definition whitespace : list string := map utf8_encode whitespace_code_points.

(** Whether a string is one white space character; and the number of bytes
    of the white space character a string starts with, 0 if it starts with
    none. *)
Definition is_space (u : string) : bool := List.existsb (String.eqb u) whitespace.

Definition space_width (s : string) : nat :=
  match List.find (fun w => String.prefix w s) whitespace with
  | Some w => String.length w
  | None => O
  end.

(** [s.lstrip()]; [skip] counts the bytes still to drop of the white space
    character being removed. *)
Fixpoint lstrip_from (skip : nat) (s : string) : string :=
  match s with
  | EmptyString => EmptyString
  | String c rest =>
      match skip with
      | S k => lstrip_from k rest
      | O =>
          match space_width s with
          | O => s
          | S k => lstrip_from k rest
          end
      end
  end.

Definition lstrip (s : string) : string := lstrip_from 0 s.

(** [s.rstrip()]: once the rest is stripped, what remains is dropped too
    if it is a single white space character. *)
Fixpoint rstrip (s : string) : string :=
  match s with
  | String c rest =>
      let kept := String c (rstrip rest) in
      if is_space kept then EmptyString else kept
  | EmptyString => EmptyString
  end.

(** [s.strip()]. *)
Definition strip (s : string) : string := rstrip (lstrip s).

(** [needle in haystack]. *)
Fixpoint contains (needle haystack : string) : bool :=
  String.prefix needle haystack ||
  match haystack with
  | String _ rest => contains needle rest
  | EmptyString => false
  end.

(** What the model takes from the Python runtime and from pydantic without
    spelling it out: the text of a float in an f-string, and the lax-mode
    coercion of a [str] to an [int] or [float] field. *)
Class Runtime := {
  float_repr : float -> string;
  str_to_int : string -> option Z;
  str_to_float : string -> option float
}.

(* ===================================================================== *)
(** ** [app/schemas/weather.py]: the pydantic model [WeatherData]         *)
(* ===================================================================== *)

Record WeatherData : Type := {
  temp_c : float;
  temp_f : float;
  condition : string;
  description : option string;
  humidity : option Z;
  wind_speed : option float;
  pressure : option Z;
  visibility : option Z;
  icon : option string
}.

(** The constraints of the schema: [humidity] has [ge=0, le=100] and
    [wind_speed] has [ge=0]. Every instance pydantic builds meets them. *)
Definition humidity_ok (h : Z) : bool := (0 <=? h) && (h <=? 100).
Definition wind_speed_ok (x : float) : bool := PrimFloat.leb 0 x.
Definition unconstrained {A : Type} (_ : A) : bool := true.

Definition valid_WeatherData (w : WeatherData) : bool :=
  match humidity w with Some h => humidity_ok h | None => true end &&
  match wind_speed w with Some x => wind_speed_ok x | None => true end.

Definition opt_json {A : Type} (f : A -> json) (o : option A) : json :=
  match o with Some a => f a | None => JNull end.

(** [weather_data.model_dump()]. *)
Definition model_dump (w : WeatherData) : json :=
  JObj [ ("temp_c", JFloat (temp_c w));
         ("temp_f", JFloat (temp_f w));
         ("condition", JStr (condition w));
         ("description", opt_json JStr (description w));
         ("humidity", opt_json JInt (humidity w));
         ("wind_speed", opt_json JFloat (wind_speed w));
         ("pressure", opt_json JInt (pressure w));
         ("visibility", opt_json JInt (visibility w));
         ("icon", opt_json JStr (icon w)) ]%string.

Section Pydantic.
Context `{rt : Runtime}.

(** Validation of one value against a field type, in pydantic's default
    (lax) mode: an [int] or [bool] is accepted for a [float]; a [bool], or
    a float without fractional part that lies strictly between -2^63 and
    2^63, for an [int]; only a [str] for a [str]. *)
Definition validate_float (v : json) : option float :=
  match v with
  | JFloat x => Some x
  | JInt n => let x := float_of_Z n in if is_infinity x then None else Some x
  | JBool b => Some (if b then 1%float else 0%float)
  | JStr s => str_to_float s
  | JNull | JList _ | JObj _ => None
  end.

Definition validate_int (v : json) : option Z :=
  match v with
  | JInt n => Some n
  | JBool b => Some (Z.b2z b)
  | JFloat x =>
      match float_to_Z x with
      | Some n => if (- 2 ^ 63 <? n) && (n <? 2 ^ 63) then Some n else None
      | None => None
      end
  | JStr s => str_to_int s
  | JNull | JList _ | JObj _ => None
  end.

Definition validate_str (v : json) : option string :=
  match v with
  | JStr s => Some s
  | _ => None
  end.

(** A field declared with [Field(...)]: the keyword must be given. *)
Definition field_required {A : Type} (validate : json -> option A)
    (kwargs : list (string * json)) (name : string) : result A :=
  match dict_get name kwargs with
  | Some v =>
      match validate v with
      | Some a => Returned a
      | None => Raised ValidationError
      end
  | None => Raised ValidationError
  end.

(** A field declared [Optional[...] = Field(None, ...)]: absent or [None]
    gives [None]; the constraints apply to a value that is given. *)
Definition field_optional {A : Type} (validate : json -> option A)
    (constraint : A -> bool)
    (kwargs : list (string * json)) (name : string) : result (option A) :=
  match dict_get name kwargs with
  | None | Some JNull => Returned None
  | Some v =>
      match validate v with
      | Some a => if constraint a then Returned (Some a) else Raised ValidationError
      | None => Raised ValidationError
      end
  end.

(** The constructor [WeatherData] applied to keyword arguments; keywords
    that are no field are ignored. *)
Definition WeatherData_init (kwargs : list (string * json)) : result WeatherData :=
  (a_temp_c <- field_required validate_float kwargs "temp_c" ;;
   a_temp_f <- field_required validate_float kwargs "temp_f" ;;
   a_condition <- field_required validate_str kwargs "condition" ;;
   a_description <- field_optional validate_str unconstrained kwargs "description" ;;
   a_humidity <- field_optional validate_int humidity_ok kwargs "humidity" ;;
   a_wind_speed <- field_optional validate_float wind_speed_ok kwargs "wind_speed" ;;
   a_pressure <- field_optional validate_int unconstrained kwargs "pressure" ;;
   a_visibility <- field_optional validate_int unconstrained kwargs "visibility" ;;
   a_icon <- field_optional validate_str unconstrained kwargs "icon" ;;
   Returned {| temp_c := a_temp_c; temp_f := a_temp_f; condition := a_condition;
               description := a_description; humidity := a_humidity;
               wind_speed := a_wind_speed; pressure := a_pressure;
               visibility := a_visibility; icon := a_icon |})%string.

(** The constructor applied to an unpacked value: unpacking into keyword
    arguments needs a mapping, anything else raises [TypeError]. *)
Definition WeatherData_splat (v : json) : result WeatherData :=
  match v with
  | JObj kv => WeatherData_init kv
  | _ => Raised TypeError
  end.

End Pydantic.

(* ===================================================================== *)
(** ** The scoped cache                                                   *)
(* ===================================================================== *)

(** Modelled from the spec: the class [ScopedCache] of
    [app/core/scoped_cache.py], which the weather service imports and whose
    code is not among the sources. An entry is identified by namespace,
    scope and cache type and holds a value and an absolute expiry time;
    time is counted in seconds. *)
Record CacheEntry : Type := {
  value : json;
  expires_at : Z
}.

Record ScopedCache : Type := { namespace : string }.

(** Modelled from the spec: [get] returns the stored value only if an
    entry exists for the exact key and its expiry has not passed; anything
    else is reported as absent, never as an error. *)
Definition ScopedCache_get (cache : ScopedCache) (now : Z)
    (entries : gmap (string * string * string) CacheEntry)
    (scope_id cache_type : string) : option json :=
  match entries !! (namespace cache, scope_id, cache_type) with
  | Some entry => if now <=? expires_at entry then Some (value entry) else None
  | None => None
  end.

(** Modelled from the spec: [set] stores or replaces the entry and
    computes its expiry as now + ttl_seconds. *)
Definition ScopedCache_set (cache : ScopedCache) (now : Z)
    (entries : gmap (string * string * string) CacheEntry)
    (scope_id cache_type : string) (v : json) (ttl_seconds : Z)
    : gmap (string * string * string) CacheEntry :=
  <[ (namespace cache, scope_id, cache_type) :=
       {| value := v; expires_at := now + ttl_seconds |} ]> entries.

(* ===================================================================== *)
(** ** [app/services/weather_service.py]                                  *)
(* ===================================================================== *)

Definition CACHE_TTL_SECONDS : Z := 30 * 60.

Definition OPENWEATHER_URL : string :=
  "https://api.openweathermap.org/data/2.5/weather".

(** [settings.weather_api_key], an optional string. *)
Record Settings : Type := { weather_api_key : option string }.

(** The request [client.get(OPENWEATHER_URL, params=params)] sends. *)
Record http_request : Type := {
  url : string;
  param_lat : float;
  param_lon : float;
  param_appid : string;
  param_units : string
}.

(** The ways the [async with] block of [fetch_weather] can go: a body that
    [response.json()] decodes; a body it cannot decode; a status for which
    [raise_for_status()] raises; a failure of the transfer itself. *)
Inductive upstream_reply : Type :=
| reply_json (data : json)
| reply_bad_json (msg : string)
| reply_status (status_code : Z) (text : string)
| reply_failed (msg : string).

(** What a call leaves behind: its outcome, the cache entries after it and
    the requests it sent to the provider, in order. *)
Record run (A : Type) : Type := {
  outcome : A;
  cache_after : gmap (string * string * string) CacheEntry;
  requests : list http_request
}.
Arguments outcome {A} r.
Arguments cache_after {A} r.
Arguments requests {A} r.

Definition not_configured_msg : string :=
  "Weather service is not configured. Please set WEATHER_API_KEY in environment variables.".

Definition invalid_api_key_msg : string :=
  "Invalid OpenWeather API key. Please verify WEATHER_API_KEY is correct, " +:+
  "activated, and has no extra whitespace. " +:+
  "Get your API key at: https://openweathermap.org/api".

(** [WeatherService._get_cache()]. *)
Definition _get_cache : ScopedCache := {| namespace := "weather" |}.

(** [WeatherService.get_api_key()]. *)
Definition get_api_key (settings : Settings) : result string :=
  match weather_api_key settings with
  | None => Raised (ValueError not_configured_msg)
  | Some key =>
      if String.eqb key EmptyString || String.eqb (strip key) EmptyString
      then Raised (ValueError not_configured_msg)
      else Returned (strip key)
  end.

(** [WeatherService.is_enabled()]; [get_api_key] raises nothing but the
    [ValueError] that is caught here. *)
Definition is_enabled (settings : Settings) : bool :=
  match get_api_key settings with
  | Returned _ => true
  | Raised _ => false
  end.

Section WeatherService.
Context `{rt : Runtime}.

(** [WeatherService._get_cache_key(latitude, longitude)]. *)
Definition _get_cache_key (latitude longitude : float) : string * string :=
  let coords := float_repr (py_round 2 latitude) +:+ "," +:+
                float_repr (py_round 2 longitude) in
  (coords, "weather"%string).

(** The [try] block of [_get_from_cache]. *)
Definition _get_from_cache_try (now : Z)
    (entries : gmap (string * string * string) CacheEntry)
    (latitude longitude : float) : result (option WeatherData) :=
  let '(scope_id, cache_type) := _get_cache_key latitude longitude in
  let cache := _get_cache in
  match ScopedCache_get cache now entries scope_id cache_type with
  | Some cached_data =>
      result_data <- py_get cached_data "result" JNull ;;
      match result_data with
      | JNull => Returned None
      | _ => w <- WeatherData_splat result_data ;; Returned (Some w)
      end
  | None => Returned None
  end.

(** [WeatherService._get_from_cache(latitude, longitude)]: whatever the
    [try] block raises is logged and turned into [None]. *)
Definition _get_from_cache (now : Z)
    (entries : gmap (string * string * string) CacheEntry)
    (latitude longitude : float) : option WeatherData :=
  match _get_from_cache_try now entries latitude longitude with
  | Returned r => r
  | Raised _ => None
  end.

(** [WeatherService._save_to_cache(latitude, longitude, weather_data)]. *)
Definition _save_to_cache (now : Z)
    (entries : gmap (string * string * string) CacheEntry)
    (latitude longitude : float) (weather_data : WeatherData)
    : gmap (string * string * string) CacheEntry :=
  let '(scope_id, cache_type) := _get_cache_key latitude longitude in
  let cache := _get_cache in
  let serialized_result := model_dump weather_data in
  let cache_data := JObj [("result"%string, serialized_result)] in
  ScopedCache_set cache now entries scope_id cache_type cache_data CACHE_TTL_SECONDS.

(** The [try] block of [_parse_openweather_response]. *)
Definition _parse_openweather_response_try (data : json)
    : result (option WeatherData) :=
  (main <- py_get data "main" (JObj []) ;;
   weather_list <- py_get data "weather" (JList [JObj []]) ;;
   weather <- py_index0 weather_list ;;
   wind <- py_get data "wind" (JObj []) ;;
   temp_c <- py_get main "temp" JNull ;;
   match temp_c with
   | JNull => Returned None
   | _ =>
       temp_f <- celsius_to_fahrenheit temp_c ;;
       a_temp_c <- py_round1 temp_c ;;
       let a_temp_f := JFloat (py_round 1 temp_f) in
       a_condition <- py_get weather "main" (JStr "Unknown") ;;
       a_description <- py_get weather "description" JNull ;;
       a_humidity <- py_get main "humidity" JNull ;;
       a_wind_speed <- py_get wind "speed" JNull ;;
       a_pressure <- py_get main "pressure" JNull ;;
       a_visibility <- py_get data "visibility" JNull ;;
       a_icon <- py_get weather "icon" JNull ;;
       w <- WeatherData_init
              [ ("temp_c", a_temp_c); ("temp_f", a_temp_f);
                ("condition", a_condition); ("description", a_description);
                ("humidity", a_humidity); ("wind_speed", a_wind_speed);
                ("pressure", a_pressure); ("visibility", a_visibility);
                ("icon", a_icon) ] ;;
       Returned (Some w)
   end)%string.

(** [except (KeyError, ValueError, TypeError)]. *)
Definition parse_catches (e : exn) : bool :=
  match e with
  | KeyError | TypeError => true
  | _ => is_ValueError e
  end.

(** [WeatherService._parse_openweather_response(data)]. *)
Definition _parse_openweather_response (data : json)
    : result (option WeatherData) :=
  match _parse_openweather_response_try data with
  | Returned r => Returned r
  | Raised e => if parse_catches e then Returned None else Raised e
  end.

Definition invalid_latitude_msg (latitude : float) : string :=
  "Invalid latitude: " +:+ float_repr latitude +:+ " (must be -90 to 90)".

Definition invalid_longitude_msg (longitude : float) : string :=
  "Invalid longitude: " +:+ float_repr longitude +:+ " (must be -180 to 180)".

(** [-90 <= latitude <= 90] and [-180 <= longitude <= 180]; a NaN fails
    both comparisons. *)
Definition latitude_in_range (latitude : float) : bool :=
  PrimFloat.leb (-90)%float latitude && PrimFloat.leb latitude 90%float.

Definition longitude_in_range (longitude : float) : bool :=
  PrimFloat.leb (-180)%float longitude && PrimFloat.leb longitude 180%float.

Definition raise {A : Type} (entries : gmap (string * string * string) CacheEntry)
    (sent : list http_request) (e : exn) : run (result A) :=
  {| outcome := Raised e; cache_after := entries; requests := sent |}.

(** The request of [fetch_weather]: [OPENWEATHER_URL] with the dict
    [params]. *)
Definition request_for (api_key : string) (latitude longitude : float)
    : http_request :=
  {| url := OPENWEATHER_URL; param_lat := latitude; param_lon := longitude;
     param_appid := api_key; param_units := "metric" |}.

(** [WeatherService.fetch_weather(latitude, longitude)], run at time [now]
    on the cache [entries], with [upstream] answering the request. *)
Definition fetch_weather (settings : Settings)
    (upstream : http_request -> upstream_reply) (now : Z)
    (entries : gmap (string * string * string) CacheEntry)
    (latitude longitude : float) : run (result (option WeatherData)) :=
  if negb (latitude_in_range latitude) then
    raise entries [] (ValueError (invalid_latitude_msg latitude))
  else if negb (longitude_in_range longitude) then
    raise entries [] (ValueError (invalid_longitude_msg longitude))
  else
    match get_api_key settings with
    | Raised e => raise entries [] e
    | Returned api_key =>
        match _get_from_cache now entries latitude longitude with
        | Some cached_data =>
            {| outcome := Returned (Some cached_data);
               cache_after := entries; requests := [] |}
        | None =>
            let params := request_for api_key latitude longitude in
            match upstream params with
            | reply_json data =>
                match _parse_openweather_response data with
                | Returned (Some weather_data) =>
                    {| outcome := Returned (Some weather_data);
                       cache_after :=
                         _save_to_cache now entries latitude longitude weather_data;
                       requests := [params] |}
                | Returned None =>
                    {| outcome := Returned None;
                       cache_after := entries; requests := [params] |}
                | Raised e => raise entries [params] e
                end
            | reply_bad_json msg => raise entries [params] (JSONDecodeError msg)
            | reply_status status_code text =>
                if status_code =? 401
                then raise entries [params] (ValueError invalid_api_key_msg)
                else raise entries [params] (HTTPStatusError status_code text)
            | reply_failed msg => raise entries [params] (HTTPError msg)
            end
        end
    end.

(* ===================================================================== *)
(** ** [app/api/v1/endpoints/weather.py]                                  *)
(* ===================================================================== *)

(** What the endpoint hands to the framework: one of the two response
    models, sent with status 200, or an [HTTPException]. *)
Inductive endpoint_response : Type :=
| WeatherFetchResponse (weather : WeatherData) (provider timestamp : string)
| WeatherServiceDisabledResponse (enabled : bool) (message : string)
| HTTPExceptionRaised (status_code : Z) (detail : string).

Definition http_status (r : endpoint_response) : Z :=
  match r with
  | WeatherFetchResponse _ _ _ => 200
  | WeatherServiceDisabledResponse _ _ => 200
  | HTTPExceptionRaised status_code _ => status_code
  end.

Definition endpoint_not_configured_msg : string :=
  "Weather service is not configured. Please set WEATHER_API_KEY in environment variables of your Journiv backend.".

Definition unavailable_msg : string :=
  "Weather service temporarily unavailable. Please try again later.".

(** The [except] clauses of the endpoint, in their order. *)
Definition endpoint_except (e : exn) : endpoint_response :=
  if is_ValueError e then
    WeatherServiceDisabledResponse false (exn_str e)
  else
    match e with
    | HTTPStatusError status_code _ =>
        if status_code =? 401
        then WeatherServiceDisabledResponse false invalid_api_key_msg
        else HTTPExceptionRaised 503 unavailable_msg
    | HTTPError _ => HTTPExceptionRaised 503 unavailable_msg
    | _ => HTTPExceptionRaised 500 "An error occurred while fetching weather data"
    end.

(** The endpoint [fetch_weather] of the router, for a request body that
    carries [latitude] and [longitude]; [timestamp] is the text of the
    current UTC time. The [HTTPException] raised for a missing reading is
    raised inside the [try] block, so the [except] clauses see it. *)
Definition endpoint_fetch_weather (settings : Settings)
    (upstream : http_request -> upstream_reply) (now : Z) (timestamp : string)
    (entries : gmap (string * string * string) CacheEntry)
    (latitude longitude : float) : run endpoint_response :=
  if negb (is_enabled settings) then
    {| outcome := WeatherServiceDisabledResponse false endpoint_not_configured_msg;
       cache_after := entries; requests := [] |}
  else
    let r := fetch_weather settings upstream now entries latitude longitude in
    {| outcome :=
         match outcome r with
         | Returned (Some weather_data) =>
             WeatherFetchResponse weather_data "openweather" timestamp
         | Returned None =>
             endpoint_except (HTTPException 500 "Failed to parse weather data")
         | Raised e => endpoint_except e
         end;
       cache_after := cache_after r;
       requests := requests r |}.

End WeatherService.

(* ===================================================================== *)
(** ** The migration that adds the role column                            *)
(* ===================================================================== *)

Module Migration.

(** A row of the table [user] before the migration. *)
Record user_row : Type := {
  id : string;
  created_at : Z;
  updated_at : Z;
  email : string;
  password : string;
  name : string;
  is_active : bool;
  profile_picture_url : option string;
  last_login_at : option Z
}.

(** A row after it: the same columns and [role]. *)
Record user_new_row : Type := {
  row : user_row;
  role : string
}.

(** [SELECT id FROM t ORDER BY created_at ASC LIMIT 1]: no row when the
    table is empty. SQL does not say which row comes first among rows with
    equal [created_at]; here it is the first of them in table order. *)
Fixpoint select_earliest (t : list user_new_row) : option user_new_row :=
  match t with
  | [] => None
  | r :: rest =>
      match select_earliest rest with
      | Some r' => if created_at (row r) <=? created_at (row r') then Some r else Some r'
      | None => Some r
      end
  end.

(** [UPDATE t SET role = 'admin' WHERE id = (SELECT id ...)]; a comparison
    with the NULL of an empty subquery selects no row. *)
Definition promote_earliest (t : list user_new_row) : list user_new_row :=
  match select_earliest t with
  | Some first =>
      map (fun r => if String.eqb (id (row r)) (id (row first))
                    then {| row := row r; role := "admin" |} else r) t
  | None => t
  end.

(** [upgrade()]. On SQLite the table is rebuilt: every row is copied into
    [user_new] with role ['user'], the earliest is promoted, and the new
    table takes the place of the old one. Otherwise the column is added
    with server default ['user'] and the earliest row is promoted. *)
Definition upgrade (is_sqlite : bool) (user : list user_row) : list user_new_row :=
  if is_sqlite then
    let user_new := map (fun r => {| row := r; role := "user" |}) user in
    promote_earliest user_new
  else
    let with_role := map (fun r => {| row := r; role := "user" |}) user in
    promote_earliest with_role.

(** [downgrade()]. On SQLite the table is rebuilt without the column: the
    nine remaining columns of every row are copied into [user_new], which
    takes the place of the old table. Otherwise the column is dropped. *)
Definition downgrade (is_sqlite : bool) (user : list user_new_row) : list user_row :=
  if is_sqlite then
    map (fun r => {| id := id (row r); created_at := created_at (row r);
                     updated_at := updated_at (row r); email := email (row r);
                     password := password (row r); name := name (row r);
                     is_active := is_active (row r);
                     profile_picture_url := profile_picture_url (row r);
                     last_login_at := last_login_at (row r) |}) user
  else
    map row user.

End Migration.

(* ===================================================================== *)
(** ** The admin invariant enforcer                                       *)
(* ===================================================================== *)

Module Enforcer.

Inductive Role : Type := admin | user.

#[export] Instance Role_eq_dec : EqDecision Role.
Proof. solve_decision. Defined.

(** Modelled from the spec: the attributes of a user that the enforcer
    reads (identity is the key of the user table). The code that registers,
    updates and deletes users is not among the sources; only its tests are. *)
Record User : Type := {
  email : string;
  role : Role;
  is_active : bool;
  created_at : Z
}.

Inductive enforcer_error : Type :=
| LastAdminError (message : string)
| SignupDisabled
| UserNotFound.

(** Modelled from the spec: a last-admin violation is answered with 400
    and a message that names the guard; a registration refused by the
    signup gate with 403. The spec is silent on a target that does not
    exist; 404 is assumed. *)
Definition error_status (e : enforcer_error) : Z :=
  match e with
  | LastAdminError _ => 400
  | SignupDisabled => 403
  | UserNotFound => 404
  end.

Definition error_detail (e : enforcer_error) : string :=
  match e with
  | LastAdminError message => message
  | SignupDisabled => "Signup is disabled"
  | UserNotFound => "User not found"
  end.

Definition is_admin (entry : nat * User) : Prop := role entry.2 = admin.

(** The committed admin count. *)
Definition admin_count (users : gmap nat User) : nat :=
  size (filter is_admin users).

(** Modelled from the spec: the first user ever registered becomes admin
    and passes the signup gate; every later registration gets role [user],
    and is refused while signup is disabled. The new user receives an
    identity that is not in use. *)
Definition register (signup_enabled : bool) (users : gmap nat User)
    (new_email : string) (now : Z)
    : enforcer_error + (nat * User * gmap nat User) :=
  let new_id := fresh (dom users) in
  if decide (users = ∅) then
    let u := {| email := new_email; role := admin; is_active := true; created_at := now |} in
    inr (new_id, u, <[new_id := u]> users)
  else if signup_enabled then
    let u := {| email := new_email; role := user; is_active := true; created_at := now |} in
    inr (new_id, u, <[new_id := u]> users)
  else inl SignupDisabled.

(** Modelled from the spec: an admin creates a user with the role given. *)
Definition create_user (users : gmap nat User) (new_email : string)
    (new_role : Role) (now : Z) : nat * User * gmap nat User :=
  let new_id := fresh (dom users) in
  let u := {| email := new_email; role := new_role; is_active := true; created_at := now |} in
  (new_id, u, <[new_id := u]> users).

(** Modelled from the spec, last-admin deletion guard: a delete fails with
    [LastAdminError] if the target is currently the only admin. *)
Definition delete_user (users : gmap nat User) (target : nat)
    : enforcer_error + gmap nat User :=
  match users !! target with
  | None => inl UserNotFound
  | Some u =>
      if decide (role u = admin) then
        if Nat.leb (admin_count users) 1
        then inl (LastAdminError "Cannot delete the last admin user")
        else inr (delete target users)
      else inr (delete target users)
  end.

(** The fields an update may change. *)
Record UserUpdate : Type := {
  set_role : option Role;
  set_email : option string;
  set_is_active : option bool
}.

Definition apply_update (u : User) (p : UserUpdate) : User :=
  {| email := default (email u) (set_email p);
     role := default (role u) (set_role p);
     is_active := default (is_active u) (set_is_active p);
     created_at := created_at u |}.

(** Modelled from the spec, last-admin demotion guard: a role change that
    would set the last remaining admin's role to [user] fails with
    [LastAdminError]. *)
Definition update_user (users : gmap nat User) (target : nat) (p : UserUpdate)
    : enforcer_error + (User * gmap nat User) :=
  match users !! target with
  | None => inl UserNotFound
  | Some u =>
      if decide (role u = admin ∧ set_role p = Some user) then
        if Nat.leb (admin_count users) 1
        then inl (LastAdminError "Cannot demote the last admin user")
        else inr (apply_update u p, <[target := apply_update u p]> users)
      else inr (apply_update u p, <[target := apply_update u p]> users)
  end.

(** The admin-management operations, and the user table after a sequence
    of them; an operation that fails leaves the table as it was. *)
Inductive operation : Type :=
| Register (signup_enabled : bool) (new_email : string) (now : Z)
| Create (new_email : string) (new_role : Role) (now : Z)
| Update (target : nat) (p : UserUpdate)
| Delete (target : nat).

Definition step (users : gmap nat User) (op : operation) : gmap nat User :=
  match op with
  | Register signup_enabled new_email now =>
      match register signup_enabled users new_email now with
      | inr (_, _, users') => users'
      | inl _ => users
      end
  | Create new_email new_role now => (create_user users new_email new_role now).2
  | Update target p =>
      match update_user users target p with
      | inr (_, users') => users'
      | inl _ => users
      end
  | Delete target =>
      match delete_user users target with
      | inr users' => users'
      | inl _ => users
      end
  end.

Definition run_operations (users : gmap nat User) (ops : list operation)
    : gmap nat User :=
  foldl step users ops.

(** The registrations among the operations. *)
Definition is_registration (op : operation) : Prop :=
  match op with
  | Register _ _ _ => True
  | _ => False
  end.

End Enforcer.

(* ===================================================================== *)
(** ** Notions used to state the properties                               *)
(* ===================================================================== *)

(** The temperature an upstream payload carries under [main.temp], if it
    carries one: absent and [null] both count as none. *)
Definition upstream_temperature (data : json) : option json :=
  match data with
  | JObj kv =>
      match dict_get "main" kv with
      | Some (JObj main) =>
          match dict_get "temp" main with
          | Some JNull | None => None
          | Some t => Some t
          end
      | _ => None
      end
  | _ => None
  end.

(** The object the parse reads [weather] fields from, when the key
    ["weather"] is missing (the default [[{}]]) or holds a list that starts
    with an object; and the same for ["wind"]. *)
Definition weather_of (kv : list (string * json)) : option (list (string * json)) :=
  match dict_get "weather" kv with
  | None => Some []
  | Some (JList (JObj weather :: _)) => Some weather
  | Some _ => None
  end.

Definition wind_of (kv : list (string * json)) : option (list (string * json)) :=
  match dict_get "wind" kv with
  | None => Some []
  | Some (JObj wind) => Some wind
  | Some _ => None
  end.



(** The Celsius and Fahrenheit temperatures stored for an upstream
    temperature: it has to be a number (a [bool] counts as the int 0 or 1),
    and an int has to be in the range of floats. *)
Definition stored_temperatures (t : json) : option (float * float) :=
  let of_int (n : Z) :=
    match int_truediv (n * 9) 5 with
    | Returned q =>
        if is_infinity (float_of_Z n) then None
        else Some (float_of_Z n, py_round 1 (q + 32)%float)
    | Raised _ => None
    end in
  match t with
  | JFloat x => Some (py_round 1 x, py_round 1 (x * 9 / 5 + 32)%float)
  | JInt n => of_int n
  | JBool b => of_int (Z.b2z b)
  | _ => None
  end.

(* ===================================================================== *)
(** ** A runtime to evaluate the model on concrete inputs                 *)
(* ===================================================================== *)

(** A float printed as sign, integer mantissa and binary exponent, and no
    coercion of strings to numbers. The theorems below hold for every
    [Runtime]; this one serves to run the definitions on examples. *)
Definition sample_float_repr (x : float) : string :=
  match Prim2SF x with
  | S754_zero s => if s then "-0.0" else "0.0"
  | S754_infinity s => if s then "-inf" else "inf"
  | S754_nan => "nan"
  | S754_finite s m e =>
      (if s then "-" else EmptyString) +:+ pretty (Zpos m) +:+ "p" +:+ pretty e
  end.

Definition sample_runtime : Runtime :=
  {| float_repr := sample_float_repr;
     str_to_int := fun _ => None;
     str_to_float := fun _ => None |}.

(** Sample inputs. *)
Definition sample_settings : Settings := {| weather_api_key := Some "  0123456789abcdef " |}.
Definition no_settings : Settings := {| weather_api_key := None |}.

Definition empty_cache : gmap (string * string * string) CacheEntry := ∅.

Definition payload_full : json :=
  JObj [ ("main", JObj [("temp", JFloat 18.5); ("humidity", JInt 65); ("pressure", JInt 1013)]);
         ("weather", JList [JObj [("main", JStr "Clear"); ("description", JStr "clear sky");
                                  ("icon", JStr "01d")]]);
         ("wind", JObj [("speed", JFloat 3.5)]);
         ("visibility", JInt 10000) ]%string.



Definition payload_weather_empty : json :=
  JObj [ ("main", JObj [("temp", JInt 20)]); ("weather", JList []) ]%string.



Definition payload_small_temp : json :=
  JObj [ ("main", JObj [("temp", JFloat 0x1.47ae147ae147bp-5)]) ]%string.

Definition payload_no_temp : json :=
  JObj [ ("main", JObj [("humidity", JInt 65)]) ]%string.

Definition reading_full : WeatherData :=
  {| temp_c := 18.5; temp_f := 0x1.0533333333333p+6; condition := "Clear";
     description := Some "clear sky"%string; humidity := Some 65;
     wind_speed := Some 3.5%float; pressure := Some 1013;
     visibility := Some 10000; icon := Some "01d"%string |}.

Definition reading_small_temp : WeatherData :=
  {| temp_c := 0; temp_f := 0x1.00ccccccccccdp+5; condition := "Unknown";
     description := None; humidity := None; wind_speed := None;
     pressure := None; visibility := None; icon := None |}.

Definition sample_request : http_request :=
  request_for "0123456789abcdef" 37.75 (-122.5).

(** A cache in which [reading_full] was saved at time 0 for (37.75, -122.5). *)
Definition sample_cache : gmap (string * string * string) CacheEntry :=
  _save_to_cache (rt := sample_runtime) 0 empty_cache 37.75 (-122.5) reading_full.

(** A cache with a live entry that has no ["result"]. *)
Definition cache_without_result : gmap (string * string * string) CacheEntry :=
  <[ ("weather", (_get_cache_key (rt := sample_runtime) 37.75 (-122.5)).1, "weather")%string
     := {| value := JObj [("other", JInt 1)]%string; expires_at := 1800 |} ]> empty_cache.

(** A cache with a live entry whose ["result"] has a pressure that is a
    float too large for an [int] field. *)
Definition cache_with_huge_pressure : gmap (string * string * string) CacheEntry :=
  <[ ("weather", (_get_cache_key (rt := sample_runtime) 37.75 (-122.5)).1, "weather")%string
     := {| value := JObj [("result",
                           JObj [("temp_c", JFloat 18.5); ("temp_f", JFloat 65.5);
                                 ("condition", JStr "Clear");
                                 ("pressure", JFloat 1e19)])]%string;
           expires_at := 1800 |} ]> empty_cache.

Definition sample_admin : Enforcer.User :=
  {| Enforcer.email := "root@example.com"; Enforcer.role := Enforcer.admin;
     Enforcer.is_active := true; Enforcer.created_at := 0 |}.

Definition sample_users : gmap nat Enforcer.User := {[ 0%nat := sample_admin ]}.

Definition sample_two_admins : gmap nat Enforcer.User :=
  <[ 1%nat := {| Enforcer.email := "second@example.com"; Enforcer.role := Enforcer.admin;
                 Enforcer.is_active := true; Enforcer.created_at := 7 |} ]> sample_users.

Definition demote : Enforcer.UserUpdate :=
  {| Enforcer.set_role := Some Enforcer.user; Enforcer.set_email := None;
     Enforcer.set_is_active := None |}.

Definition promote : Enforcer.UserUpdate :=
  {| Enforcer.set_role := Some Enforcer.admin; Enforcer.set_email := None;
     Enforcer.set_is_active := None |}.

Definition sample_operations : list Enforcer.operation :=
  [ Enforcer.Delete 0; Enforcer.Update 0 demote;
    Enforcer.Register true "second@example.com" 5; Enforcer.Update 1 promote;
    Enforcer.Delete 0; Enforcer.Update 1 demote; Enforcer.Delete 1 ].

Definition sample_row (an_id : string) (created : Z) : Migration.user_row :=
  {| Migration.id := an_id; Migration.created_at := created;
     Migration.updated_at := created; Migration.email := an_id +:+ "@example.com";
     Migration.password := "x"; Migration.name := an_id; Migration.is_active := true;
     Migration.profile_picture_url := None; Migration.last_login_at := None |}.

Definition sample_table : list Migration.user_row :=
  [ sample_row "u2" 20; sample_row "u1" 10; sample_row "u3" 10 ].

(* ===================================================================== *)
(** ** The request schema and the helper of the integration tests         *)
(* ===================================================================== *)

Module RequestSchema.

(** [WeatherFetchRequest] of [app/schemas/weather.py]. *)
Record WeatherFetchRequest : Type := {
  latitude : float;
  longitude : float
}.

Section Validation.
Context `{rt : Runtime}.

(** A required float field declared with [ge=lo, le=hi]. *)
Definition field_bounded (lo hi : float) (kwargs : list (string * json))
    (name : string) : result float :=
  x <- field_required validate_float kwargs name ;;
  if PrimFloat.leb lo x && PrimFloat.leb x hi then Returned x
  else Raised ValidationError.

(** The constructor [WeatherFetchRequest] applied to the items of the
    request body. *)
Definition WeatherFetchRequest_init (kwargs : list (string * json))
    : result WeatherFetchRequest :=
  (a_latitude <- field_bounded (-90) 90 kwargs "latitude" ;;
   a_longitude <- field_bounded (-180) 180 kwargs "longitude" ;;
   Returned {| latitude := a_latitude; longitude := a_longitude |})%string.

End Validation.
End RequestSchema.

(** [_unique_credentials(prefix)] of the two integration test files;
    [suffix] stands for [uuid.uuid4().hex[:8]]. *)
Definition _unique_credentials (prefix suffix : string) : string * string :=
  let email := prefix +:+ "-" +:+ suffix +:+ "@example.com" in
  let password := "Pass-" +:+ suffix +:+ "-Aa1!" in
  (email, password).

(** Sample inputs for the properties beyond the claims. *)
Definition blank_settings : Settings := {| weather_api_key := Some "   " |}.

(** Keys with white space that is not ASCII: a no-break space (U+00A0)
    and a next line (U+0085) alone; and a key between a no-break space and
    an ideographic space (U+3000). *)
Definition unicode_blank_settings : Settings :=
  {| weather_api_key := Some (utf8_encode 160 +:+ utf8_encode 133) |}.

Definition unicode_padded_settings : Settings :=
  {| weather_api_key := Some (utf8_encode 160 +:+ "abc" +:+ utf8_encode 12288) |}.

Definition unicode_padded_request : http_request :=
  {| url := OPENWEATHER_URL; param_lat := 37.75; param_lon := -122.5;
     param_appid := "abc"; param_units := "metric" |}.

Definition request_body : list (string * json) :=
  [ ("latitude", JFloat 37.75); ("longitude", JInt (-122)) ]%string.

Definition payload_humid : json :=
  JObj [ ("main", JObj [("temp", JFloat 18.5); ("humidity", JInt 150)]) ]%string.

Definition payload_huge_temp : json :=
  JObj [ ("main", JObj [("temp", JInt (10 ^ 400))]) ]%string.

Definition upgraded_sample_table : list Migration.user_new_row :=
  Migration.upgrade false sample_table.

(* ===================================================================== *)
(** * Properties of the weather service                                   *)
(* ===================================================================== *)

Section WeatherTheory.
Context `{rt : Runtime}.

Implicit Types (settings : Settings) (upstream : http_request -> upstream_reply).
Implicit Types (entries : gmap (string * string * string) CacheEntry).
Implicit Types (latitude longitude : float) (now : Z).

Lemma invalid_latitude_msg_not_configured latitude :
  invalid_latitude_msg latitude <> not_configured_msg.
Proof. unfold invalid_latitude_msg. simpl. discriminate. Qed.

Lemma invalid_latitude_msg_not_api_key latitude :
  invalid_latitude_msg latitude <> invalid_api_key_msg.
Proof. unfold invalid_latitude_msg. simpl. discriminate. Qed.

Lemma invalid_longitude_msg_not_configured longitude :
  invalid_longitude_msg longitude <> not_configured_msg.
Proof. unfold invalid_longitude_msg. simpl. discriminate. Qed.

Lemma invalid_longitude_msg_not_api_key longitude :
  invalid_longitude_msg longitude <> invalid_api_key_msg.
Proof. unfold invalid_longitude_msg. simpl. discriminate. Qed.

Lemma get_api_key_raises settings e :
  get_api_key settings = Raised e -> e = ValueError not_configured_msg.
Proof.
  unfold get_api_key. destruct (weather_api_key settings) as [key|].
  - destruct (_ || _); congruence.
  - congruence.
Qed.

(** The parse raises no [ValueError]: its [except] clause catches them. *)
Lemma parse_raises_no_ValueError data e :
  _parse_openweather_response data = Raised e -> is_ValueError e = false.
Proof.
  unfold _parse_openweather_response.
  destruct (_parse_openweather_response_try data) as [r|e']; [discriminate|].
  destruct (parse_catches e') eqn:Hc; [discriminate|].
  intros [= <-]. destruct e'; simpl in *; congruence.
Qed.

Lemma bind_Returned {A B : Type} (r : result A) (k : A -> result B) (b : B) :
  bind r k = Returned b -> exists a, r = Returned a /\ k a = Returned b.
Proof. destruct r as [a|e]; simpl; [eauto | discriminate]. Qed.

Ltac bind_inv Hyp x Hx :=
  apply bind_Returned in Hyp; destruct Hyp as (x & Hx & Hyp).

Lemma parse_Returned_Some data w :
  _parse_openweather_response data = Returned (Some w) ->
  _parse_openweather_response_try data = Returned (Some w).
Proof.
  unfold _parse_openweather_response.
  destruct (_parse_openweather_response_try data) as [r|e]; [done|].
  destruct (parse_catches e); discriminate.
Qed.

Lemma field_required_Returned {A : Type} (validate : json -> option A) kwargs name a :
  field_required validate kwargs name = Returned a ->
  exists v, dict_get name kwargs = Some v /\ validate v = Some a.
Proof.
  unfold field_required. destruct (dict_get name kwargs) as [v|]; [|discriminate].
  destruct (validate v) as [a'|] eqn:Hv; [|discriminate].
  intros [= <-]. eauto.
Qed.

(** A reading comes out of the parse only if the payload is an object whose
    [main] is an object with a temperature [t] that is not [null]; its two
    temperatures are then computed from [t]. *)
Lemma parse_Some_temperature data w :
  _parse_openweather_response data = Returned (Some w) ->
  exists t tf tcv,
    upstream_temperature data = Some t /\
    celsius_to_fahrenheit t = Returned tf /\
    py_round1 t = Returned tcv /\
    validate_float tcv = Some (temp_c w) /\
    temp_f w = py_round 1 tf.
Proof.
  intros Hp. apply parse_Returned_Some in Hp.
  unfold _parse_openweather_response_try in Hp.
  bind_inv Hp main Hmain. bind_inv Hp wl Hwl. bind_inv Hp weather Hweather.
  bind_inv Hp wind Hwind. bind_inv Hp t Ht.
  destruct data as [| | | | | |kv]; try discriminate. simpl in Hmain.
  destruct main as [| | | | | |mkv]; try discriminate. simpl in Ht.
  assert (Hcont :
    (tf <- celsius_to_fahrenheit t ;;
     a_temp_c <- py_round1 t ;;
     let a_temp_f := JFloat (py_round 1 tf) in
     a_condition <- py_get weather "main" (JStr "Unknown") ;;
     a_description <- py_get weather "description" JNull ;;
     a_humidity <- py_get (JObj mkv) "humidity" JNull ;;
     a_wind_speed <- py_get wind "speed" JNull ;;
     a_pressure <- py_get (JObj mkv) "pressure" JNull ;;
     a_visibility <- py_get (JObj kv) "visibility" JNull ;;
     a_icon <- py_get weather "icon" JNull ;;
     w0 <- WeatherData_init
            [ ("temp_c", a_temp_c); ("temp_f", a_temp_f);
              ("condition", a_condition); ("description", a_description);
              ("humidity", a_humidity); ("wind_speed", a_wind_speed);
              ("pressure", a_pressure); ("visibility", a_visibility);
              ("icon", a_icon) ] ;;
     Returned (Some w0))%string = Returned (Some w) /\ t <> JNull).
  { destruct t; try discriminate; split; try done. }
  clear Hp. destruct Hcont as [Hp Hnull].
  bind_inv Hp tf Htf. bind_inv Hp tcv Htc. cbv zeta in Hp.
  bind_inv Hp c1 H1. bind_inv Hp c2 H2. bind_inv Hp c3 H3. bind_inv Hp c4 H4.
  bind_inv Hp c5 H5. bind_inv Hp c6 H6. bind_inv Hp c7 H7.
  bind_inv Hp w0 Hw. injection Hp as ->.
  unfold WeatherData_init in Hw.
  bind_inv Hw x1 Hx1. bind_inv Hw x2 Hx2. bind_inv Hw x3 Hx3. bind_inv Hw x4 Hx4.
  bind_inv Hw x5 Hx5. bind_inv Hw x6 Hx6. bind_inv Hw x7 Hx7. bind_inv Hw x8 Hx8.
  bind_inv Hw x9 Hx9. injection Hw as <-. simpl.
  apply field_required_Returned in Hx1 as (v1 & Hv1 & Hx1).
  apply field_required_Returned in Hx2 as (v2 & Hv2 & Hx2).
  simpl in Hv1, Hv2. injection Hv1 as <-. injection Hv2 as <-.
  simpl in Hx2. injection Hx2 as <-.
  exists t, tf, tcv. repeat split; try done.
  simpl. injection Hmain as Hmain. injection Ht as Ht.
  destruct (dict_get "main" kv) as [m|].
  - subst m. destruct (dict_get "temp" mkv) as [t'|]; subst; [|done].
    by destruct t.
  - injection Hmain as <-. simpl in Ht. by subst.
Qed.

(** Past the coordinate checks, the only [ValueError]s that leave
    [fetch_weather] are the two credential errors. *)
Lemma fetch_weather_ValueError settings upstream now entries latitude longitude msg :
  latitude_in_range latitude = true ->
  longitude_in_range longitude = true ->
  outcome (fetch_weather settings upstream now entries latitude longitude)
    = Raised (ValueError msg) ->
  msg = not_configured_msg \/ msg = invalid_api_key_msg.
Proof.
  intros Hlat Hlon. unfold fetch_weather. rewrite Hlat, Hlon. simpl.
  destruct (get_api_key settings) as [key|e] eqn:Hkey.
  - destruct (_get_from_cache now entries latitude longitude); [discriminate|].
    destruct (upstream _) as [data|m|code text|m]; simpl; try discriminate.
    + destruct (_parse_openweather_response data) as [[w|]|e] eqn:Hp;
        simpl; try discriminate.
      apply parse_raises_no_ValueError in Hp. intros [= ->]. discriminate.
    + destruct (code =? 401); simpl; [|discriminate].
      intros [= <-]. by right.
  - apply get_api_key_raises in Hkey as ->. simpl. intros [= <-]. by left.
Qed.

(** C9. Coordinates are validated first. A latitude that fails
    [-90 <= latitude <= 90] makes [fetch_weather] raise the invalid-latitude
    [ValueError], and a longitude that fails [-180 <= longitude <= 180] (the
    latitude being in range) the invalid-longitude one, whatever the
    settings (credential or not), the cache and the provider are: the cache
    is left as it was and nothing is requested. Conversely, with both
    coordinates in range [fetch_weather] raises neither of the two errors. *)
Theorem coordinates_validated_first settings upstream now entries latitude longitude :
  let r := fetch_weather settings upstream now entries latitude longitude in
  (latitude_in_range latitude = false ->
     r = raise entries [] (ValueError (invalid_latitude_msg latitude))) /\
  (latitude_in_range latitude = true -> longitude_in_range longitude = false ->
     r = raise entries [] (ValueError (invalid_longitude_msg longitude))) /\
  (latitude_in_range latitude = true -> longitude_in_range longitude = true ->
     forall x, outcome r <> Raised (ValueError (invalid_latitude_msg x)) /\
               outcome r <> Raised (ValueError (invalid_longitude_msg x))).
Proof.
  cbv zeta. split; [|split].
  - unfold fetch_weather. intros ->. reflexivity.
  - unfold fetch_weather. intros -> ->. reflexivity.
  - intros Hlat Hlon x. split; intros E;
      destruct (fetch_weather_ValueError _ _ _ _ _ _ _ Hlat Hlon E) as [E'|E'];
      revert E'.
    + apply invalid_latitude_msg_not_configured.
    + apply invalid_latitude_msg_not_api_key.
    + apply invalid_longitude_msg_not_configured.
    + apply invalid_longitude_msg_not_api_key.
Qed.

(** [fetch_weather] contacts the provider only with coordinates in range,
    a credential and no usable cache entry, and then exactly once. *)
Lemma fetch_weather_contacted settings upstream now entries latitude longitude req :
  In req (requests (fetch_weather settings upstream now entries latitude longitude)) ->
  exists api_key,
    latitude_in_range latitude = true /\
    longitude_in_range longitude = true /\
    get_api_key settings = Returned api_key /\
    _get_from_cache now entries latitude longitude = None /\
    req = request_for api_key latitude longitude /\
    requests (fetch_weather settings upstream now entries latitude longitude) = [req].
Proof.
  unfold fetch_weather.
  destruct (latitude_in_range latitude); simpl; [|done].
  destruct (longitude_in_range longitude); simpl; [|done].
  destruct (get_api_key settings) as [api_key|e]; simpl; [|done].
  destruct (_get_from_cache now entries latitude longitude); simpl; [done|].
  intros Hin. exists api_key.
  assert (req = request_for api_key latitude longitude) as ->.
  { destruct (upstream _) as [data|m|code text|m]; simpl in Hin.
    - destruct (_parse_openweather_response data) as [[w|]|e]; simpl in Hin;
        destruct Hin as [<-|[]]; done.
    - destruct Hin as [<-|[]]; done.
    - destruct (code =? 401); simpl in Hin; destruct Hin as [<-|[]]; done.
    - destruct Hin as [<-|[]]; done. }
  repeat split; try done.
  destruct (upstream _) as [data|m|code text|m]; simpl; try done.
  - by destruct (_parse_openweather_response data) as [[w|]|e].
  - by destruct (code =? 401).
Qed.

Lemma is_enabled_get_api_key settings api_key :
  get_api_key settings = Returned api_key -> is_enabled settings = true.
Proof. unfold is_enabled. by intros ->. Qed.

(** C8. When the provider answers the request of [fetch_weather] with
    status 401, the service raises the credential [ValueError] (and not the
    [HTTPStatusError] it caught), after that single request and without
    touching the cache; the endpoint answers it with the disabled response,
    status 200, whose message is the credential guidance, and no second
    request is sent. *)
Theorem upstream_401_is_credential_error
    settings upstream now timestamp entries latitude longitude req text :
  let r := fetch_weather settings upstream now entries latitude longitude in
  let resp := endpoint_fetch_weather settings upstream now timestamp entries
                latitude longitude in
  In req (requests r) ->
  upstream req = reply_status 401 text ->
  outcome r = Raised (ValueError invalid_api_key_msg) /\
  requests r = [req] /\
  cache_after r = entries /\
  outcome resp = WeatherServiceDisabledResponse false invalid_api_key_msg /\
  http_status (outcome resp) = 200 /\
  requests resp = [req] /\
  contains "verify WEATHER_API_KEY" invalid_api_key_msg = true.
Proof.
  intros r resp Hin Hup.
  destruct (fetch_weather_contacted _ _ _ _ _ _ _ Hin)
    as (api_key & Hlat & Hlon & Hkey & Hmiss & -> & Hreq).
  assert (Hr : r = raise entries [request_for api_key latitude longitude]
                     (ValueError invalid_api_key_msg)).
  { subst r. unfold fetch_weather. rewrite Hlat, Hlon, Hkey, Hmiss. simpl.
    by rewrite Hup. }
  assert (Hresp : outcome resp = WeatherServiceDisabledResponse false invalid_api_key_msg
                  /\ requests resp = requests r).
  { subst resp. unfold endpoint_fetch_weather.
    rewrite (is_enabled_get_api_key _ _ Hkey). simpl. fold r. by rewrite Hr. }
  destruct Hresp as [Ho Hq]. rewrite Hq, Ho, Hr. by repeat split.
Qed.

(** C5, as the code has it. When the parse fails, that is when
    [fetch_weather] returns no reading, the service itself raises nothing
    and leaves the cache as it was, and the endpoint answers with an
    [HTTPException] of status 500. *)
Theorem parse_failure_is_http_500
    settings upstream now timestamp entries latitude longitude :
  let r := fetch_weather settings upstream now entries latitude longitude in
  let resp := endpoint_fetch_weather settings upstream now timestamp entries
                latitude longitude in
  outcome r = Returned None ->
  cache_after r = entries /\
  cache_after resp = entries /\
  exists detail, outcome resp = HTTPExceptionRaised 500 detail.
Proof.
  intros r resp Hnone.
  assert (Hen : is_enabled settings = true /\ cache_after r = entries).
  { subst r. revert Hnone. unfold fetch_weather.
    destruct (latitude_in_range latitude); simpl; [|done].
    destruct (longitude_in_range longitude); simpl; [|done].
    destruct (get_api_key settings) as [api_key|e] eqn:Hkey; simpl; [|done].
    rewrite (is_enabled_get_api_key _ _ Hkey).
    destruct (_get_from_cache now entries latitude longitude); simpl; [done|].
    destruct (upstream _) as [data|m|code text|m]; simpl; try done.
    - by destruct (_parse_openweather_response data) as [[w|]|e].
    - by destruct (code =? 401). }
  destruct Hen as [Hen Hcache]. split; [done|].
  subst resp. unfold endpoint_fetch_weather. rewrite Hen. simpl. fold r.
  rewrite Hnone. split; [done|]. simpl. eauto.
Qed.

(** C6. When the payload the provider returned carries no temperature
    ([main.temp] absent or [null]), [fetch_weather] leaves the cache as it
    was and its outcome is no reading. *)
Theorem no_temperature_no_cache_write
    settings upstream now entries latitude longitude req data :
  let r := fetch_weather settings upstream now entries latitude longitude in
  In req (requests r) ->
  upstream req = reply_json data ->
  upstream_temperature data = None ->
  cache_after r = entries /\ forall w, outcome r <> Returned (Some w).
Proof.
  intros r Hin Hup Hnone.
  destruct (fetch_weather_contacted _ _ _ _ _ _ _ Hin)
    as (api_key & Hlat & Hlon & Hkey & Hmiss & -> & Hreq).
  subst r. unfold fetch_weather. rewrite Hlat, Hlon, Hkey, Hmiss. simpl.
  rewrite Hup.
  destruct (_parse_openweather_response data) as [[w|]|e] eqn:Hp; simpl;
    try (split; [done|discriminate]).
  apply parse_Some_temperature in Hp as (t & ? & ? & Ht & _). congruence.
Qed.

(** C4, as the code has it. The two temperatures of a reading that comes
    out of the parse are both computed from the temperature [t] of the
    payload: [temp_c] is [round(t, 1)] and [temp_f] is
    [round(t * 9/5 + 32, 1)], the conversion of the unrounded [t]. *)
Theorem fahrenheit_of_upstream_temperature data w :
  _parse_openweather_response data = Returned (Some w) ->
  exists t, upstream_temperature data = Some t /\
    match t with
    | JFloat x =>
        temp_c w = py_round 1 x /\ temp_f w = py_round 1 (x * 9 / 5 + 32)%float
    | JInt n =>
        temp_c w = float_of_Z n /\
        exists q, int_truediv (n * 9) 5 = Returned q /\
                  temp_f w = py_round 1 (q + 32)%float
    | JBool b =>
        temp_c w = float_of_Z (Z.b2z b) /\
        exists q, int_truediv (Z.b2z b * 9) 5 = Returned q /\
                  temp_f w = py_round 1 (q + 32)%float
    | _ => False
    end.
Proof.
  intros Hp. apply parse_Some_temperature in Hp as (t & tf & tcv & Ht & Htf & Htc & Hv & Hf).
  exists t. split; [done|].
  destruct t as [| b | n | x | | |]; simpl in Htf, Htc; try discriminate.
  - injection Htc as <-. simpl in Hv.
    destruct (is_infinity (float_of_Z (Z.b2z b))); [discriminate|]. injection Hv as <-.
    bind_inv Htf q Hq. injection Htf as <-. eauto.
  - injection Htc as <-. simpl in Hv.
    destruct (is_infinity (float_of_Z n)); [discriminate|]. injection Hv as <-.
    bind_inv Htf q Hq. injection Htf as <-. eauto.
  - injection Htc as <-. injection Htf as <-. simpl in Hv. injection Hv as <-. done.
Qed.

(** Validation accepts what [model_dump] wrote, and gives the reading back. *)
Lemma WeatherData_splat_model_dump w :
  valid_WeatherData w = true -> WeatherData_splat (model_dump w) = Returned w.
Proof.
  destruct w as [tc tf c d h ws p v i]. unfold valid_WeatherData. simpl.
  intros [Hh Hws]%andb_prop.
  unfold WeatherData_init, field_required, field_optional. simpl.
  destruct d, h, ws, p, v, i; simpl; rewrite ?Hh, ?Hws; reflexivity.
Qed.

Lemma field_optional_Returned {A : Type} (validate : json -> option A)
    (constraint : A -> bool) kwargs name o :
  field_optional validate constraint kwargs name = Returned o ->
  forall a, o = Some a -> constraint a = true.
Proof.
  unfold field_optional. intros Hf a ->.
  destruct (dict_get name kwargs) as [v|]; [|discriminate].
  destruct (validate v) as [a'|]; [|by destruct v].
  destruct (constraint a') eqn:Hc; [|by destruct v].
  destruct v; congruence.
Qed.

(** Every instance the constructor builds meets the schema's constraints. *)
Lemma WeatherData_init_valid kwargs w :
  WeatherData_init kwargs = Returned w -> valid_WeatherData w = true.
Proof.
  unfold WeatherData_init. intros Hw.
  bind_inv Hw x1 Hx1. bind_inv Hw x2 Hx2. bind_inv Hw x3 Hx3. bind_inv Hw x4 Hx4.
  bind_inv Hw x5 Hx5. bind_inv Hw x6 Hx6. bind_inv Hw x7 Hx7. bind_inv Hw x8 Hx8.
  bind_inv Hw x9 Hx9. injection Hw as <-.
  unfold valid_WeatherData. simpl. apply andb_true_intro. split.
  - destruct x5 as [h|]; [|done]. by eapply field_optional_Returned.
  - destruct x6 as [x|]; [|done]. by eapply field_optional_Returned.
Qed.

Lemma parse_Some_valid data w :
  _parse_openweather_response data = Returned (Some w) -> valid_WeatherData w = true.
Proof.
  intros Hp. apply parse_Returned_Some in Hp.
  unfold _parse_openweather_response_try in Hp.
  bind_inv Hp main Hmain. bind_inv Hp wl Hwl. bind_inv Hp weather Hweather.
  bind_inv Hp wind Hwind. bind_inv Hp t Ht.
  destruct t; try discriminate;
    (bind_inv Hp tf Htf; bind_inv Hp tcv Htc; cbv zeta in Hp;
     bind_inv Hp c1 H1; bind_inv Hp c2 H2; bind_inv Hp c3 H3; bind_inv Hp c4 H4;
     bind_inv Hp c5 H5; bind_inv Hp c6 H6; bind_inv Hp c7 H7;
     bind_inv Hp w0 Hw; injection Hp as ->;
     by eapply WeatherData_init_valid).
Qed.

(** Reading back, under any coordinates with the same cache key and before
    the entry expires, what [_save_to_cache] stored. *)
Lemma get_from_cache_after_save now now' entries latitude longitude latitude' longitude' w :
  valid_WeatherData w = true ->
  now' <= now + CACHE_TTL_SECONDS ->
  _get_cache_key latitude' longitude' = _get_cache_key latitude longitude ->
  _get_from_cache now' (_save_to_cache now entries latitude longitude w)
    latitude' longitude' = Some w.
Proof.
  intros Hvalid Hnow Hkey.
  unfold _get_from_cache, _get_from_cache_try, _save_to_cache. rewrite Hkey.
  destruct (_get_cache_key latitude longitude) as [scope_id cache_type].
  unfold ScopedCache_get, ScopedCache_set. rewrite lookup_insert_eq. simpl.
  destruct (now' <=? now + CACHE_TTL_SECONDS) eqn:Hle; [|lia].
  pose proof (WeatherData_splat_model_dump _ Hvalid) as Hs.
  unfold model_dump in Hs. simpl in Hs. simpl. by rewrite Hs.
Qed.

(** C10. [_save_to_cache] stores the reading as the dict
    [{"result": model_dump()}] under the cache key of the coordinates, with
    the 30-minute expiry, and [_get_from_cache], called before the entry
    expires, rebuilds from it a reading equal to the one saved. A live
    entry whose value has no ["result"] key, or has [null] under it, is a
    miss: [None] comes back and the [try] block raises nothing. *)
Theorem cache_round_trip now now' entries entries' latitude longitude w e kv :
  valid_WeatherData w = true ->
  now' <= now + CACHE_TTL_SECONDS ->
  let saved := _save_to_cache now entries latitude longitude w in
  let key := ("weather"%string, (_get_cache_key latitude longitude).1,
              (_get_cache_key latitude longitude).2) in
  saved !! key = Some {| value := JObj [("result"%string, model_dump w)];
                         expires_at := now + CACHE_TTL_SECONDS |} /\
  _get_from_cache now' saved latitude longitude = Some w /\
  (entries' !! key = Some e ->
   value e = JObj kv ->
   dict_get "result" kv = None \/ dict_get "result" kv = Some JNull ->
   _get_from_cache_try now' entries' latitude longitude = Returned None /\
   _get_from_cache now' entries' latitude longitude = None).
Proof.
  intros Hvalid Hnow saved key. split; [|split].
  - subst saved key. unfold _save_to_cache.
    destruct (_get_cache_key latitude longitude) as [scope_id cache_type]. simpl.
    unfold ScopedCache_set. by rewrite lookup_insert_eq.
  - by apply get_from_cache_after_save.
  - subst key. intros He Hv Hres.
    assert (Htry : _get_from_cache_try now' entries' latitude longitude = Returned None).
    { unfold _get_from_cache_try.
      destruct (_get_cache_key latitude longitude) as [scope_id cache_type].
      simpl in He. unfold ScopedCache_get. simpl. rewrite He.
      destruct (now' <=? expires_at e); [|done]. rewrite Hv. simpl.
      by destruct Hres as [-> | ->]. }
    split; [done|]. unfold _get_from_cache. by rewrite Htry.
Qed.

(** C7, as the code has it. With coordinates in range and a credential
    configured, a live cache entry that holds a serialized reading under
    the key of the coordinates makes [fetch_weather] return that reading,
    with no request to the provider and the cache untouched. In particular,
    after a first [fetch_weather] that went to the provider and returned a
    reading, a second one under the same settings, with coordinates in
    range that have the same cache key, within the 30 minutes, returns the
    reading the first one stored, whatever the provider would answer.
    Coordinates have the same cache key when their roundings to 2 decimals
    are the same floats, the sign of a zero included. *)
Theorem cached_reading_served_without_upstream
    settings upstream upstream2 now now2 entries latitude longitude
    latitude2 longitude2 w e api_key :
  let key := ("weather"%string, (_get_cache_key latitude longitude).1,
              (_get_cache_key latitude longitude).2) in
  let first := fetch_weather settings upstream now entries latitude longitude in
  (latitude_in_range latitude = true ->
   longitude_in_range longitude = true ->
   get_api_key settings = Returned api_key ->
   entries !! key = Some e ->
   now <= expires_at e ->
   value e = JObj [("result"%string, model_dump w)] ->
   valid_WeatherData w = true ->
   first = {| outcome := Returned (Some w); cache_after := entries; requests := [] |})
  /\
  (requests first <> [] ->
   outcome first = Returned (Some w) ->
   latitude_in_range latitude2 = true ->
   longitude_in_range longitude2 = true ->
   _get_cache_key latitude2 longitude2 = _get_cache_key latitude longitude ->
   now2 <= now + CACHE_TTL_SECONDS ->
   fetch_weather settings upstream2 now2 (cache_after first) latitude2 longitude2
   = {| outcome := Returned (Some w); cache_after := cache_after first;
        requests := [] |})
  /\
  (py_round 2 latitude2 = py_round 2 latitude ->
   py_round 2 longitude2 = py_round 2 longitude ->
   _get_cache_key latitude2 longitude2 = _get_cache_key latitude longitude).
Proof.
  intros key first. split; [|split].
  - intros Hlat Hlon Hkey He Hnow Hv Hvalid. subst first key.
    unfold fetch_weather. rewrite Hlat, Hlon, Hkey. simpl.
    assert (Hhit : _get_from_cache now entries latitude longitude = Some w).
    { unfold _get_from_cache, _get_from_cache_try.
      destruct (_get_cache_key latitude longitude) as [scope_id cache_type].
      simpl in He. unfold ScopedCache_get. simpl. rewrite He.
      destruct (now <=? expires_at e) eqn:Hle; [|lia]. rewrite Hv.
      pose proof (WeatherData_splat_model_dump _ Hvalid) as Hs.
      unfold model_dump in Hs. simpl in Hs. simpl. by rewrite Hs. }
    by rewrite Hhit.
  - intros Hreq Hout Hlat2 Hlon2 Hsame Hnow2.
    destruct (requests first) as [|req rest] eqn:Hreqs; [done|].
    assert (Hin : In req (requests first)) by (rewrite Hreqs; by left).
    destruct (fetch_weather_contacted _ _ _ _ _ _ _ Hin)
      as (key' & Hlat & Hlon & Hkey & Hmiss & -> & _).
    assert (Hsaved : cache_after first = _save_to_cache now entries latitude longitude w
                     /\ valid_WeatherData w = true).
    { revert Hout. subst first. unfold fetch_weather.
      rewrite Hlat, Hlon, Hkey, Hmiss. simpl.
      destruct (upstream _) as [data|m|code text|m]; simpl; try done.
      - destruct (_parse_openweather_response data) as [[w'|]|e'] eqn:Hp; simpl; try done.
        intros [= ->]. split; [done|]. by eapply parse_Some_valid.
      - by destruct (code =? 401). }
    destruct Hsaved as [-> Hvalid].
    unfold fetch_weather. rewrite Hlat2, Hlon2, Hkey. simpl.
    by rewrite (get_from_cache_after_save _ _ _ _ _ _ _ _ Hvalid Hnow2 Hsame).
  - intros Hla Hlo. unfold _get_cache_key. by rewrite Hla, Hlo.
Qed.





Lemma stored_temperatures_parse t tcel tfah :
  stored_temperatures t = Some (tcel, tfah) <->
  t <> JNull /\
  exists tf tcv, celsius_to_fahrenheit t = Returned tf /\ py_round1 t = Returned tcv /\
                 validate_float tcv = Some tcel /\ tfah = py_round 1 tf.
Proof.
  split.
  - destruct t as [|b| n | x | | |]; simpl; try discriminate.
    + destruct (int_truediv (Z.b2z b * 9) 5) as [q|]; [|discriminate].
      destruct (is_infinity (float_of_Z (Z.b2z b))) eqn:Hinf; [discriminate|].
      intros [= <- <-]. split; [done|]. exists (q + 32)%float, (JInt (Z.b2z b)).
      simpl. by rewrite Hinf.
    + destruct (int_truediv (n * 9) 5) as [q|]; [|discriminate].
      destruct (is_infinity (float_of_Z n)) eqn:Hinf; [discriminate|].
      intros [= <- <-]. split; [done|]. exists (q + 32)%float, (JInt n).
      simpl. by rewrite Hinf.
    + intros [= <- <-]. split; [done|].
      by exists (x * 9 / 5 + 32)%float, (JFloat (py_round 1 x)).
  - intros (Hnull & tf & tcv & Htf & Htc & Hv & ->).
    destruct t as [|b| n | x | | |]; simpl in *; try discriminate.
    + destruct (int_truediv (Z.b2z b * 9) 5) as [q|]; [|discriminate].
      injection Htf as <-. injection Htc as <-. simpl in Hv.
      destruct (is_infinity (float_of_Z (Z.b2z b))); congruence.
    + destruct (int_truediv (n * 9) 5) as [q|]; [|discriminate].
      injection Htf as <-. injection Htc as <-. simpl in Hv.
      destruct (is_infinity (float_of_Z n)); congruence.
    + injection Htf as <-. injection Htc as <-. simpl in Hv. congruence.
Qed.




End WeatherTheory.

(* ===================================================================== *)
(** * The weather properties on concrete inputs                           *)
(* ===================================================================== *)



(** C4 does not hold as stated: for the upstream temperature 0.04 the
    reading stores [temp_c = round(0.04, 1) = 0.0] and
    [temp_f = round(0.04 * 9/5 + 32, 1) = 32.1], while the conversion of the
    stored [temp_c], [round(0.0 * 9/5 + 32, 1)], is 32.0. *)
Lemma fahrenheit_of_stored_celsius_counterexample :
  _parse_openweather_response (rt := sample_runtime) payload_small_temp
    = Returned (Some reading_small_temp) /\
  py_round 1 (temp_c reading_small_temp * 9 / 5 + 32)%float = 32%float /\
  PrimFloat.eqb (temp_f reading_small_temp)
    (py_round 1 (temp_c reading_small_temp * 9 / 5 + 32)%float) = false.
Proof. repeat split; vm_compute; reflexivity. Qed.

(** The two temperatures stored for the upstream temperature 0.04. *)
Lemma fahrenheit_of_upstream_temperature_witness :
  _parse_openweather_response (rt := sample_runtime) payload_small_temp
    = Returned (Some reading_small_temp) /\
  exists t, upstream_temperature payload_small_temp = Some t /\
    match t with
    | JFloat x =>
        temp_c reading_small_temp = py_round 1 x /\
        temp_f reading_small_temp = py_round 1 (x * 9 / 5 + 32)%float
    | JInt n =>
        temp_c reading_small_temp = float_of_Z n /\
        exists q, int_truediv (n * 9) 5 = Returned q /\
                  temp_f reading_small_temp = py_round 1 (q + 32)%float
    | JBool b =>
        temp_c reading_small_temp = float_of_Z (Z.b2z b) /\
        exists q, int_truediv (Z.b2z b * 9) 5 = Returned q /\
                  temp_f reading_small_temp = py_round 1 (q + 32)%float
    | _ => False
    end.
Proof.
  split; [vm_compute; reflexivity|].
  apply (fahrenheit_of_upstream_temperature (rt := sample_runtime)).
  vm_compute; reflexivity.
Defined.

(** C5 does not hold as stated: with a credential, an empty cache and a
    payload without temperature, [fetch_weather] returns [None] and the
    endpoint raises an [HTTPException] with status 500. *)
Lemma parse_failure_counterexample :
  outcome (fetch_weather (rt := sample_runtime) sample_settings
             (fun _ => reply_json payload_no_temp) 0 empty_cache 37.75 (-122.5))
    = Returned None /\
  outcome (endpoint_fetch_weather (rt := sample_runtime) sample_settings
             (fun _ => reply_json payload_no_temp) 0 "2025-12-05T10:30:00Z"
             empty_cache 37.75 (-122.5))
    = HTTPExceptionRaised 500 "An error occurred while fetching weather data".
Proof. split; vm_compute; reflexivity. Qed.

(** A payload without temperature, seen from the service and from the
    endpoint. *)
Lemma parse_failure_is_http_500_witness :
  outcome (fetch_weather (rt := sample_runtime) sample_settings
             (fun _ => reply_json payload_no_temp) 0 empty_cache 37.75 (-122.5))
    = Returned None /\
  exists detail,
    outcome (endpoint_fetch_weather (rt := sample_runtime) sample_settings
               (fun _ => reply_json payload_no_temp) 0 "2025-12-05T10:30:00Z"
               empty_cache 37.75 (-122.5))
    = HTTPExceptionRaised 500 detail.
Proof.
  split; [vm_compute; reflexivity|].
  apply (parse_failure_is_http_500 (rt := sample_runtime)).
  vm_compute; reflexivity.
Defined.

(** A payload without temperature leaves the empty cache empty. *)
Lemma no_temperature_no_cache_write_witness :
  In sample_request
     (requests (fetch_weather (rt := sample_runtime) sample_settings
                  (fun _ => reply_json payload_no_temp) 0 empty_cache 37.75 (-122.5))) /\
  upstream_temperature payload_no_temp = None /\
  cache_after (fetch_weather (rt := sample_runtime) sample_settings
                 (fun _ => reply_json payload_no_temp) 0 empty_cache 37.75 (-122.5))
    = empty_cache.
Proof.
  assert (Hin : In sample_request
     (requests (fetch_weather (rt := sample_runtime) sample_settings
                  (fun _ => reply_json payload_no_temp) 0 empty_cache 37.75 (-122.5)))).
  { vm_compute. left. reflexivity. }
  split; [exact Hin|]. split; [reflexivity|].
  apply (no_temperature_no_cache_write (rt := sample_runtime) _ _ _ _ _ _
           sample_request payload_no_temp Hin); reflexivity.
Defined.

(** C7 does not hold as stated. With no credential configured, a live
    cache entry for the coordinates is not even looked up: [fetch_weather]
    raises the not-configured [ValueError]. And coordinates in the same
    2-decimal bucket need not have the same key: 0.0009765625 rounds to
    0.0 and -0.0009765625 to -0.0, which are equal as numbers and print
    differently, so that a second call right after the first, for the
    latitude of the other sign, finds no entry and goes to the provider. *)
Lemma cache_hit_needs_credential_and_key_counterexample :
  (latitude_in_range 37.75 = true /\
   longitude_in_range (-122.5) = true /\
   _get_from_cache (rt := sample_runtime) 60 sample_cache 37.75 (-122.5)
     = Some reading_full /\
   outcome (fetch_weather (rt := sample_runtime) no_settings
              (fun _ => reply_json payload_full) 60 sample_cache 37.75 (-122.5))
     = Raised (ValueError not_configured_msg))
  /\
  (let first := fetch_weather (rt := sample_runtime) sample_settings
                  (fun _ => reply_json payload_full) 0 empty_cache
                  0.0009765625 0.0009765625 in
   let second := fetch_weather (rt := sample_runtime) sample_settings
                   (fun _ => reply_failed "down") 1 (cache_after first)
                   (-0.0009765625) 0.0009765625 in
   latitude_in_range 0.0009765625 = true /\
   latitude_in_range (-0.0009765625) = true /\
   longitude_in_range 0.0009765625 = true /\
   PrimFloat.eqb (py_round 2 (-0.0009765625)) (py_round 2 0.0009765625) = true /\
   _get_cache_key (rt := sample_runtime) 0.0009765625 0.0009765625
     = ("0.0,0.0", "weather")%string /\
   _get_cache_key (rt := sample_runtime) (-0.0009765625) 0.0009765625
     = ("-0.0,0.0", "weather")%string /\
   outcome first = Returned (Some reading_full) /\
   length (requests first) = 1%nat /\
   length (requests second) = 1%nat /\
   outcome second = Raised (HTTPError "down")).
Proof. repeat split; vm_compute; reflexivity. Qed.

(** A hit on a saved entry while the provider is down; and a second call,
    30 minutes after the first, for coordinates that round to the same key. *)
Lemma cached_reading_served_without_upstream_witness :
  fetch_weather (rt := sample_runtime) sample_settings (fun _ => reply_failed "down")
    60 sample_cache 37.75 (-122.5)
  = {| outcome := Returned (Some reading_full); cache_after := sample_cache;
       requests := [] |} /\
  outcome (fetch_weather (rt := sample_runtime) sample_settings
             (fun _ => reply_failed "down") 1800
             (cache_after (fetch_weather (rt := sample_runtime) sample_settings
                             (fun _ => reply_json payload_full) 0 empty_cache
                             37.75 (-122.5)))
             37.7490234375 (-122.5009765625))
  = Returned (Some reading_full).
Proof.
  split.
  - eapply (proj1 (cached_reading_served_without_upstream (rt := sample_runtime)
             sample_settings (fun _ => reply_failed "down") (fun _ => reply_failed "down")
             60 60 sample_cache 37.75 (-122.5) 37.75 (-122.5) reading_full
             {| value := JObj [("result"%string, model_dump reading_full)];
                expires_at := 1800 |} "0123456789abcdef"));
      vm_compute; try reflexivity. discriminate.
  - rewrite (proj1 (proj2 (cached_reading_served_without_upstream (rt := sample_runtime)
             sample_settings (fun _ => reply_json payload_full)
             (fun _ => reply_failed "down")
             0 1800 empty_cache 37.75 (-122.5) 37.7490234375 (-122.5009765625)
             reading_full {| value := JNull; expires_at := 0 |} EmptyString))).
    + reflexivity.
    + vm_compute. discriminate.
    + vm_compute. reflexivity.
    + vm_compute. reflexivity.
    + vm_compute. reflexivity.
    + vm_compute. reflexivity.
    + vm_compute. discriminate.
Defined.

(** A provider that answers 401. *)
Lemma upstream_401_is_credential_error_witness :
  In sample_request
     (requests (fetch_weather (rt := sample_runtime) sample_settings
                  (fun _ => reply_status 401 "unauthorized") 0 empty_cache
                  37.75 (-122.5))) /\
  outcome (endpoint_fetch_weather (rt := sample_runtime) sample_settings
             (fun _ => reply_status 401 "unauthorized") 0 "2025-12-05T10:30:00Z"
             empty_cache 37.75 (-122.5))
    = WeatherServiceDisabledResponse false invalid_api_key_msg.
Proof.
  assert (Hin : In sample_request
     (requests (fetch_weather (rt := sample_runtime) sample_settings
                  (fun _ => reply_status 401 "unauthorized") 0 empty_cache
                  37.75 (-122.5)))).
  { vm_compute. left. reflexivity. }
  split; [exact Hin|].
  apply (upstream_401_is_credential_error (rt := sample_runtime) _ _ _
           "2025-12-05T10:30:00Z" _ _ _ sample_request "unauthorized" Hin eq_refl).
Defined.

(** A latitude of 90.5 and a longitude that is not a number, with no
    credential configured and a cache that holds an entry. *)
Lemma coordinates_validated_first_witness :
  fetch_weather (rt := sample_runtime) no_settings (fun _ => reply_json payload_full)
    60 sample_cache 90.5 0
  = raise sample_cache [] (ValueError (invalid_latitude_msg (rt := sample_runtime) 90.5)) /\
  fetch_weather (rt := sample_runtime) no_settings (fun _ => reply_json payload_full)
    60 sample_cache 0 nan
  = raise sample_cache [] (ValueError (invalid_longitude_msg (rt := sample_runtime) nan)).
Proof.
  split.
  - apply (proj1 (coordinates_validated_first (rt := sample_runtime) no_settings
                    (fun _ => reply_json payload_full) 60 sample_cache 90.5 0)).
    vm_compute; reflexivity.
  - apply (proj1 (proj2 (coordinates_validated_first (rt := sample_runtime) no_settings
                    (fun _ => reply_json payload_full) 60 sample_cache 0 nan)));
      vm_compute; reflexivity.
Defined.

(** Reading back at the last second of the entry, and a live entry that
    has no ["result"]. *)
Lemma cache_round_trip_witness :
  valid_WeatherData reading_full = true /\
  _get_from_cache (rt := sample_runtime) 1800 sample_cache 37.75 (-122.5)
    = Some reading_full /\
  _get_from_cache (rt := sample_runtime) 60 cache_without_result 37.75 (-122.5) = None.
Proof.
  pose proof (cache_round_trip (rt := sample_runtime) 0 1800 empty_cache
                cache_without_result 37.75 (-122.5) reading_full
                {| value := JObj [("other", JInt 1)]%string; expires_at := 1800 |}
                [("other", JInt 1)]%string eq_refl) as Hrt.
  pose proof (cache_round_trip (rt := sample_runtime) 0 60 empty_cache
                cache_without_result 37.75 (-122.5) reading_full
                {| value := JObj [("other", JInt 1)]%string; expires_at := 1800 |}
                [("other", JInt 1)]%string eq_refl) as Hmiss.
  split; [reflexivity|]. split.
  - apply Hrt. vm_compute. discriminate.
  - apply Hmiss.
    + vm_compute. discriminate.
    + vm_compute. reflexivity.
    + reflexivity.
    + left. reflexivity.
Defined.

(* ===================================================================== *)
(** * Properties of the admin invariant enforcer                          *)
(* ===================================================================== *)

Module EnforcerTheory.
Import Enforcer.

Lemma role_not_admin (r : Role) : r <> admin -> r = user.
Proof. by destruct r. Qed.

Lemma admin_count_insert_admin (users : gmap nat User) i u :
  role u = admin -> (admin_count users <= admin_count (<[i:=u]> users))%nat.
Proof.
  intros Hu. unfold admin_count. rewrite map_filter_insert_True by done.
  rewrite map_size_insert. destruct (filter is_admin users !! i); simpl; lia.
Qed.

Lemma admin_count_delete (users : gmap nat User) i :
  admin_count (delete i users) =
    match users !! i with
    | Some u => if decide (role u = admin) then pred (admin_count users)
                else admin_count users
    | None => admin_count users
    end.
Proof.
  unfold admin_count. rewrite map_filter_delete, map_size_delete.
  destruct (users !! i) as [u|] eqn:Hu.
  - destruct (decide (role u = admin)) as [Ha|Ha].
    + by rewrite (map_lookup_filter_Some_2 is_admin users i u Hu Ha).
    + rewrite map_lookup_filter_None_2; [done|].
      right. intros x Hx. unfold is_admin. simpl. congruence.
  - rewrite map_lookup_filter_None_2; [done|]. by left.
Qed.

Lemma admin_count_insert_user (users : gmap nat User) i u :
  role u <> admin -> admin_count (<[i:=u]> users) = admin_count (delete i users).
Proof. intros Hu. unfold admin_count. by rewrite map_filter_insert_False. Qed.

Lemma fresh_id_unused (users : gmap nat User) : users !! fresh (dom users) = None.
Proof. apply not_elem_of_dom. apply is_fresh. Qed.

Lemma admin_count_insert_fresh (users : gmap nat User) u :
  (admin_count users <= admin_count (<[fresh (dom users) := u]> users))%nat.
Proof.
  destruct (decide (role u = admin)) as [Ha|Ha].
  - by apply admin_count_insert_admin.
  - rewrite admin_count_insert_user, admin_count_delete, fresh_id_unused; done.
Qed.

Lemma step_keeps_an_admin (users : gmap nat User) (op : operation) :
  (1 <= admin_count users)%nat -> (1 <= admin_count (step users op))%nat.
Proof.
  intros Hone. destruct op as [signup_enabled new_email now | new_email new_role now
                               | target p | target]; simpl.
  - unfold register.
    destruct (decide (users = ∅)); [|destruct signup_enabled]; try done;
      etrans; [exact Hone | apply admin_count_insert_fresh
              | exact Hone | apply admin_count_insert_fresh].
  - etrans; [exact Hone | apply admin_count_insert_fresh].
  - unfold update_user. destruct (users !! target) as [u|] eqn:Hu; [|done].
    destruct (decide (role (apply_update u p) = admin)) as [Hnew|Hnew].
    + assert (1 <= admin_count (<[target:=apply_update u p]> users))%nat
        by (etrans; [exact Hone | by apply admin_count_insert_admin]).
      destruct (decide _); [destruct (Nat.leb _ _)|]; done.
    + assert (Hcount : admin_count (<[target:=apply_update u p]> users) =
                       if decide (role u = admin) then pred (admin_count users)
                       else admin_count users).
      { by rewrite admin_count_insert_user, admin_count_delete, Hu. }
      destruct (decide (role u = admin ∧ set_role p = Some user)) as [[Ha Hp]|Hguard].
      * destruct (Nat.leb (admin_count users) 1) eqn:Hle; [done|].
        apply Nat.leb_gt in Hle. rewrite Hcount. rewrite decide_True by done. lia.
      * rewrite Hcount. destruct (decide (role u = admin)) as [Ha|Ha]; [|done].
        exfalso. apply Hguard. split; [done|].
        unfold apply_update in Hnew. simpl in Hnew.
        destruct (set_role p) as [[]|]; simpl in Hnew; congruence.
  - unfold delete_user. destruct (users !! target) as [u|] eqn:Hu; [|done].
    destruct (decide (role u = admin)) as [Ha|Ha].
    + destruct (Nat.leb (admin_count users) 1) eqn:Hle; [done|].
      apply Nat.leb_gt in Hle. rewrite admin_count_delete, Hu.
      rewrite decide_True by done. lia.
    + rewrite admin_count_delete, Hu. by rewrite decide_False.
Qed.

Lemma run_keeps_an_admin (ops : list operation) (users : gmap nat User) :
  (1 <= admin_count users)%nat -> (1 <= admin_count (run_operations users ops))%nat.
Proof.
  revert users. induction ops as [|op ops IH]; intros users Hone; [done|].
  simpl. apply IH. by apply step_keeps_an_admin.
Qed.

Lemma bootstrap_makes_an_admin signup_enabled new_email now :
  admin_count (step ∅ (Register signup_enabled new_email now)) = 1%nat.
Proof.
  simpl. unfold register. rewrite decide_True by done. rewrite insert_empty.
  unfold admin_count. rewrite map_filter_singleton_True by done.
  apply map_size_singleton.
Qed.

(** C1. No sequence of admin-management operations empties the set of
    admins: not when it starts from a user table with an admin, and not
    when it starts from the empty system with the first registration.
    Deleting the sole admin, and changing the sole admin's role to [user],
    each fail with status 400 and a message that contains "last admin", and
    the user table stays as it was; with two admins or more the same
    operations succeed. *)
Theorem admin_set_never_empty (users : gmap nat User) (ops : list operation)
    (signup_enabled : bool) (new_email : string) (now : Z)
    (target : nat) (u : User) (p : UserUpdate) :
  ((1 <= admin_count users)%nat ->
   (1 <= admin_count (run_operations users ops))%nat) /\
  (1 <= admin_count
          (run_operations ∅ (Register signup_enabled new_email now :: ops)))%nat /\
  (users !! target = Some u ->
   role u = admin ->
   set_role p = Some user ->
   (admin_count users = 1%nat ->
      (exists e, delete_user users target = inl e /\ error_status e = 400 /\
                 contains "last admin" (error_detail e) = true) /\
      step users (Delete target) = users /\
      (exists e, update_user users target p = inl e /\ error_status e = 400 /\
                 contains "last admin" (error_detail e) = true) /\
      step users (Update target p) = users) /\
   ((2 <= admin_count users)%nat ->
      delete_user users target = inr (delete target users) /\
      update_user users target p
        = inr (apply_update u p, <[target := apply_update u p]> users) /\
      role (apply_update u p) = user)).
Proof.
  split; [apply run_keeps_an_admin|]. split.
  { change (run_operations ∅ (Register signup_enabled new_email now :: ops))
      with (run_operations (step ∅ (Register signup_enabled new_email now)) ops).
    apply run_keeps_an_admin.
    by rewrite (bootstrap_makes_an_admin signup_enabled new_email now). }
  intros Hu Ha Hp. split.
  - intros Hsole. simpl. unfold delete_user, update_user. rewrite Hu.
    rewrite !decide_True by done. rewrite Hsole. simpl.
    repeat split; eexists; repeat split; reflexivity.
  - intros Htwo. unfold delete_user, update_user. rewrite Hu.
    rewrite !decide_True by done.
    destruct (Nat.leb (admin_count users) 1) eqn:Hle.
    + apply Nat.leb_le in Hle. lia.
    + repeat split. unfold apply_update. simpl. by rewrite Hp.
Qed.

End EnforcerTheory.

(* ===================================================================== *)
(** * Properties of the bootstrap: migration and registration             *)
(* ===================================================================== *)

Module MigrationTheory.
Import Migration.

Lemma select_earliest_nonempty (t : list user_new_row) :
  t <> [] -> exists first, select_earliest t = Some first.
Proof.
  destruct t as [|r rest]; [done|]. intros _. simpl.
  destruct (select_earliest rest) as [r'|]; [|eauto].
  destruct (created_at (row r) <=? created_at (row r')); eauto.
Qed.

Lemma select_earliest_minimal (t : list user_new_row) first :
  select_earliest t = Some first ->
  In first t /\ forall r, In r t -> created_at (row first) <= created_at (row r).
Proof.
  revert first. induction t as [|r rest IH]; intros first; [done|]. simpl.
  destruct (select_earliest rest) as [r'|] eqn:Hrest.
  - destruct (IH r' eq_refl) as [Hin Hmin].
    destruct (created_at (row r) <=? created_at (row r')) eqn:Hle; intros [= <-].
    + split; [by left|]. intros x [<-|Hx]; [lia|].
      specialize (Hmin x Hx). lia.
    + split; [by right|]. intros x [<-|Hx]; [lia|]. by apply Hmin.
  - intros [= <-]. split; [by left|].
    destruct rest as [|r2 rest2]; [by intros x [<-|[]]; lia|].
    simpl in Hrest. destruct (select_earliest rest2) as [r3|]; [|done].
    by destruct (created_at (row r2) <=? created_at (row r3)).
Qed.

Lemma same_id_same_row (t : list user_row) r1 r2 :
  NoDup (map id t) -> In r1 t -> In r2 t -> id r1 = id r2 -> r1 = r2.
Proof.
  induction t as [|r rest IH]; [done|]. simpl.
  intros Hnd [<-|H1] [<-|H2] Hid; try done.
  - apply NoDup_cons in Hnd as [Hnotin _]. exfalso. apply Hnotin.
    rewrite Hid. apply list_elem_of_In. by apply in_map.
  - apply NoDup_cons in Hnd as [Hnotin _]. exfalso. apply Hnotin.
    rewrite <- Hid. apply list_elem_of_In. by apply in_map.
  - apply NoDup_cons in Hnd as [_ Hnd]. by apply IH.
Qed.

(** Both branches of [upgrade] give every row the role ['user'] and then
    promote the earliest. *)
Lemma upgrade_unfold is_sqlite (t : list user_row) :
  upgrade is_sqlite t = promote_earliest (map (fun r => {| row := r; role := "user" |}) t).
Proof. by destruct is_sqlite. Qed.

(** After the migration of a table that is not empty and whose ids are
    distinct, the rows are the old ones, and the role ['admin'] is held by
    exactly one of them, which no row precedes in creation time. *)
Lemma upgrade_promotes_earliest is_sqlite (t : list user_row) :
  t <> [] ->
  NoDup (map id t) ->
  exists earliest,
    In earliest t /\
    (forall r, In r t -> created_at earliest <= created_at r) /\
    map row (upgrade is_sqlite t) = t /\
    In {| row := earliest; role := "admin" |} (upgrade is_sqlite t) /\
    forall r', In r' (upgrade is_sqlite t) ->
      (role r' = "admin"%string <-> row r' = earliest) /\
      (role r' = "admin"%string \/ role r' = "user"%string).
Proof.
  intros Hne Hnd. rewrite upgrade_unfold. unfold promote_earliest.
  set (t' := map (fun r => {| row := r; role := "user" |}) t).
  destruct (select_earliest_nonempty t') as [first Hfirst].
  { subst t'. by destruct t. }
  rewrite Hfirst. apply select_earliest_minimal in Hfirst as [Hin Hmin].
  subst t'. apply in_map_iff in Hin as (earliest & <- & Hin). simpl in *.
  exists earliest. split; [done|]. split.
  { intros r Hr. apply (Hmin {| row := r; role := "user" |}).
    apply in_map_iff. eauto. }
  split.
  { rewrite !map_map. rewrite <- (map_id t) at 2. apply map_ext.
    intros r. simpl. by destruct (String.eqb (id r) (id earliest)). }
  split.
  { rewrite map_map. apply in_map_iff. exists earliest. simpl.
    by rewrite String.eqb_refl. }
  intros r' Hr'. rewrite map_map in Hr'.
  apply in_map_iff in Hr' as (r & <- & Hr). simpl.
  destruct (String.eqb (id r) (id earliest)) eqn:Heq; simpl.
  - apply String.eqb_eq in Heq.
    rewrite (same_id_same_row t r earliest Hnd Hr Hin Heq). by split; [split|left].
  - apply String.eqb_neq in Heq. split; [|by right].
    split; [done|]. intros ->. done.
Qed.

End MigrationTheory.

Module Bootstrap.
Import Enforcer.

Lemma register_later_user signup_enabled (users : gmap nat User) new_email now :
  users <> ∅ ->
  let users' := step users (Register signup_enabled new_email now) in
  users' <> ∅ /\ filter is_admin users' = filter is_admin users.
Proof.
  intros Hne. simpl. unfold register. rewrite decide_False by done.
  destruct signup_enabled; [|done]. split; [apply insert_non_empty|].
  apply map_filter_insert_not'; [done|].
  intros y Hy. pose proof (EnforcerTheory.fresh_id_unused users). congruence.
Qed.

Lemma registrations_keep_admins (ops : list operation) (users : gmap nat User) :
  users <> ∅ ->
  Forall is_registration ops ->
  filter is_admin (run_operations users ops) = filter is_admin users.
Proof.
  revert users. induction ops as [|op ops IH]; intros users Hne Hops; [done|].
  apply Forall_cons in Hops as [Hop Hops]. destruct op; try done.
  destruct (register_later_user signup_enabled users new_email now Hne) as [Hne' Hsame].
  simpl. unfold run_operations in IH. rewrite IH by done. exact Hsame.
Qed.

(** C2. Registering into a system without users gives the new user the
    role [admin], with signup enabled or disabled. Registering into a system
    that has users gives the role [user] when signup is enabled and is
    refused when it is disabled, so a user it yields never has another role.
    Hence after the first registration and any further ones the first user
    is the only admin; and the migration [upgrade] likewise leaves the role
    [admin] with exactly one row of a table whose ids are distinct, one
    that no row precedes in creation time. *)
Theorem first_user_becomes_admin (signup_enabled : bool) (users : gmap nat User)
    (new_email : string) (now : Z) (later : list operation)
    (is_sqlite : bool) (table : list Migration.user_row) :
  let first := {| email := new_email; role := admin; is_active := true;
                  created_at := now |} in
  let first_id := fresh (dom (∅ : gmap nat User)) in
  register signup_enabled ∅ new_email now
    = inr (first_id, first, {[ first_id := first ]}) /\
  (users <> ∅ ->
     register true users new_email now
       = inr (fresh (dom users),
              {| email := new_email; role := user; is_active := true;
                 created_at := now |},
              <[ fresh (dom users) :=
                   {| email := new_email; role := user; is_active := true;
                      created_at := now |} ]> users) /\
     register false users new_email now = inl SignupDisabled /\
     forall new_id u users',
       register signup_enabled users new_email now = inr (new_id, u, users') ->
       role u = user) /\
  (Forall is_registration later ->
     filter is_admin (run_operations {[ first_id := first ]} later)
       = {[ first_id := first ]}) /\
  (table <> [] ->
   NoDup (map Migration.id table) ->
   exists earliest,
     In earliest table /\
     (forall r, In r table -> Migration.created_at earliest <= Migration.created_at r) /\
     map Migration.row (Migration.upgrade is_sqlite table) = table /\
     In {| Migration.row := earliest; Migration.role := "admin" |}
        (Migration.upgrade is_sqlite table) /\
     forall r', In r' (Migration.upgrade is_sqlite table) ->
       (Migration.role r' = "admin"%string <-> Migration.row r' = earliest)).
Proof.
  intros first first_id. split; [|split; [|split]].
  - unfold register. rewrite decide_True by done. by rewrite insert_empty.
  - intros Hne. unfold register. rewrite !decide_False by done.
    split; [done|]. split; [done|].
    intros new_id u users'. destruct signup_enabled; [|done]. by intros [= <- <- <-].
  - intros Hlater. rewrite registrations_keep_admins; [|apply map_non_empty_singleton|done].
    by apply map_filter_singleton_True.
  - intros Hne Hnd.
    destruct (MigrationTheory.upgrade_promotes_earliest is_sqlite table Hne Hnd)
      as (earliest & Hin & Hmin & Hrows & Hadmin & Hrole).
    exists earliest. repeat split; try done; by apply Hrole.
Qed.

End Bootstrap.

(* ===================================================================== *)
(** * The admin properties on concrete inputs                             *)
(* ===================================================================== *)

(** The guards at work on a table with one admin and on one with two. *)
Lemma admin_set_never_empty_witness :
  (1 <= Enforcer.admin_count sample_users)%nat /\
  (1 <= Enforcer.admin_count
          (Enforcer.run_operations sample_users sample_operations))%nat /\
  Enforcer.step sample_users (Enforcer.Delete 0) = sample_users /\
  Enforcer.step sample_users (Enforcer.Update 0 demote) = sample_users /\
  Enforcer.delete_user sample_two_admins 0 = inr (delete 0%nat sample_two_admins).
Proof.
  assert (Hone : (1 <= Enforcer.admin_count sample_users)%nat)
    by (vm_compute; lia).
  destruct (EnforcerTheory.admin_set_never_empty sample_users sample_operations
              true EmptyString 0 0%nat sample_admin demote)
    as (Hrun & _ & Hsole).
  destruct (EnforcerTheory.admin_set_never_empty sample_two_admins [] 
              true EmptyString 0 0%nat sample_admin demote)
    as (_ & _ & Hmany).
  destruct (Hsole eq_refl eq_refl eq_refl) as [Hguard _].
  destruct (Hmany eq_refl eq_refl eq_refl) as [_ Hpass].
  destruct Hguard as (_ & Hdel & _ & Hupd); [vm_compute; reflexivity|].
  destruct Hpass as (Hdel2 & _); [vm_compute; lia|].
  split; [exact Hone|]. split; [exact (Hrun Hone)|]. by repeat split.
Defined.

(** The bootstrap on the empty system, the signup gate on a system with a
    user, and the migration of a table of three rows. *)
Lemma first_user_becomes_admin_witness :
  sample_users <> ∅ /\
  NoDup (map Migration.id sample_table) /\
  (exists new_id users',
     Enforcer.register false ∅ "root@example.com" 0
       = inr (new_id, sample_admin, users')) /\
  Enforcer.register false sample_users "late@example.com" 9
    = inl Enforcer.SignupDisabled /\
  exists earliest,
    In {| Migration.row := earliest; Migration.role := "admin" |}
       (Migration.upgrade true sample_table) /\
    Migration.created_at earliest = 10.
Proof.
  assert (Hne : sample_users <> ∅) by apply map_non_empty_singleton.
  assert (Hnd : NoDup (map Migration.id sample_table)).
  { simpl. repeat (apply NoDup_cons; split; [by intros ?%list_elem_of_In; simpl in *; intuition discriminate|]).
    apply NoDup_nil_2. }
  destruct (Bootstrap.first_user_becomes_admin false sample_users "late@example.com" 9
              [] true sample_table) as (_ & Hlater & _ & Hmig).
  destruct (Bootstrap.first_user_becomes_admin false sample_users "root@example.com" 0
              [] true sample_table) as (Hfirst & _).
  destruct (Hlater Hne) as (_ & Hrefused & _).
  destruct (Hmig ltac:(discriminate) Hnd) as (earliest & Hin & Hmin & _ & Hadmin & _).
  repeat split; try done.
  - eauto.
  - exists earliest. split; [done|].
    destruct Hin as [<-|[<-|[<-|[]]]]; try reflexivity.
    exfalso. specialize (Hmin (sample_row "u1" 10)). simpl in Hmin.
    assert (20 <= 10) by (apply Hmin; right; by left). lia.
Defined.

(* ===================================================================== *)
(** * Further properties of the weather service                           *)
(* ===================================================================== *)

Lemma rstrip_idempotent (s : string) : rstrip (rstrip s) = rstrip s.
Proof.
  induction s as [|c rest IH]; [done|]. simpl.
  destruct (is_space (String c (rstrip rest))) eqn:Hc; [done|].
  simpl. by rewrite IH, Hc.
Qed.

Lemma prefix_trans (s1 s2 s3 : string) :
  String.prefix s1 s2 = true -> String.prefix s2 s3 = true ->
  String.prefix s1 s3 = true.
Proof.
  revert s1 s2. induction s3 as [|c3 s3 IH]; intros [|c1 s1] [|c2 s2]; simpl; try done.
  destruct (Ascii.ascii_dec c1 c2) as [->|]; [|done].
  destruct (Ascii.ascii_dec c2 c3) as [->|]; [|done].
  apply IH.
Qed.

Lemma rstrip_prefix (s : string) : String.prefix (rstrip s) s = true.
Proof.
  induction s as [|c rest IH]; [done|]. simpl.
  destruct (is_space (String c (rstrip rest))); [by destruct rest|].
  simpl. by destruct (Ascii.ascii_dec c c).
Qed.

Lemma whitespace_not_empty (w : string) : In w whitespace -> w <> EmptyString.
Proof.
  assert (forallb (fun w => negb (String.eqb w EmptyString)) whitespace = true)
    as Hall by reflexivity.
  intros Hw ->. by apply (proj1 (forallb_forall _ _) Hall) in Hw.
Qed.

Lemma space_width_0 (s : string) :
  space_width s = O <-> forall w, In w whitespace -> String.prefix w s = false.
Proof.
  unfold space_width.
  destruct (find (fun w => String.prefix w s) whitespace) as [w|] eqn:Hfind.
  - apply find_some in Hfind as [Hin Hpre]. split.
    + intros Hlen. destruct w; [|done]. by apply whitespace_not_empty in Hin.
    + intros Hnone. by rewrite (Hnone w Hin) in Hpre.
  - split; [|done]. intros _ w Hin. by apply (find_none _ _ Hfind).
Qed.

Lemma lstrip_from_stripped (skip : nat) (s : string) :
  lstrip_from skip s = EmptyString \/ space_width (lstrip_from skip s) = O.
Proof.
  revert skip. induction s as [|c rest IH]; intros skip; [by left|].
  destruct skip as [|k]; [|apply IH]. cbn [lstrip_from].
  destruct (space_width (String c rest)) eqn:Hw; [by right|apply IH].
Qed.

Lemma lstrip_rstrip_lstrip (s : string) : lstrip (rstrip (lstrip s)) = rstrip (lstrip s).
Proof.
  unfold lstrip at 1.
  destruct (lstrip_from_stripped 0 s) as [Hs|Hs]; fold (lstrip s) in Hs.
  { by rewrite Hs. }
  destruct (rstrip (lstrip s)) as [|c rest] eqn:Hr; [done|]. cbn [lstrip_from].
  assert (space_width (String c rest) = O) as ->; [|done].
  apply space_width_0. intros w Hin.
  destruct (String.prefix w (String c rest)) eqn:Hpre; [|done].
  rewrite <- Hr in Hpre.
  pose proof (prefix_trans _ _ _ Hpre (rstrip_prefix (lstrip s))) as Hboth.
  by rewrite (proj1 (space_width_0 _) Hs w Hin) in Hboth.
Qed.

Lemma strip_idempotent (s : string) : strip (strip s) = strip s.
Proof. unfold strip. by rewrite lstrip_rstrip_lstrip, rstrip_idempotent. Qed.

Lemma strip_empty : strip EmptyString = EmptyString.
Proof. reflexivity. Qed.

Lemma get_api_key_Returned (settings : Settings) api_key :
  get_api_key settings = Returned api_key ->
  exists key, weather_api_key settings = Some key /\
              api_key = strip key /\ strip key <> EmptyString.
Proof.
  unfold get_api_key. destruct (weather_api_key settings) as [key|]; [|done].
  destruct (String.eqb key EmptyString); simpl; [done|].
  destruct (String.eqb (strip key) EmptyString) eqn:Hs; [done|].
  apply String.eqb_neq in Hs. intros [= <-]. eauto.
Qed.

(** X1. [get_api_key] returns a key exactly when one is configured that is
    not blank, and what it returns is that key without the white space
    around it: it is not empty and stripping it again changes nothing.
    [is_enabled] is true in exactly that case. *)
Theorem api_key_is_stripped (settings : Settings) :
  (forall api_key, get_api_key settings = Returned api_key ->
     exists key, weather_api_key settings = Some key /\
                 api_key = strip key /\ api_key <> EmptyString /\
                 strip api_key = api_key) /\
  (is_enabled settings = true <->
     exists key, weather_api_key settings = Some key /\ strip key <> EmptyString) /\
  (is_enabled settings = false ->
     get_api_key settings = Raised (ValueError not_configured_msg)).
Proof.
  unfold is_enabled, get_api_key.
  destruct (weather_api_key settings) as [key|]; simpl.
  - destruct (String.eqb key EmptyString) eqn:Hkey; simpl.
    + apply String.eqb_eq in Hkey as ->. repeat split; try done.
      intros (key & [= <-] & Hne). by rewrite strip_empty in Hne.
    + destruct (String.eqb (strip key) EmptyString) eqn:Hs.
      * apply String.eqb_eq in Hs. repeat split; try done.
        intros (key' & [= <-] & Hne). done.
      * apply String.eqb_neq in Hs. repeat split; try done.
        -- intros api_key [= <-]. exists key. by rewrite strip_idempotent.
        -- intros _. eauto.
  - repeat split; try done. by intros (key & ? & _).
Qed.

Section WeatherExtras.
Context `{rt : Runtime}.

Implicit Types (settings : Settings) (upstream : http_request -> upstream_reply).
Implicit Types (entries : gmap (string * string * string) CacheEntry).
Implicit Types (latitude longitude : float) (now : Z).

(** X2. A status other than 401 for which [raise_for_status()] raises
    (429 included) leaves [fetch_weather] as the [HTTPStatusError] itself,
    after the one request and with the cache untouched; the endpoint turns
    it into an [HTTPException] with status 503. *)
Theorem upstream_status_error_is_503
    settings upstream now timestamp entries latitude longitude req status_code text :
  let r := fetch_weather settings upstream now entries latitude longitude in
  let resp := endpoint_fetch_weather settings upstream now timestamp entries
                latitude longitude in
  In req (requests r) ->
  upstream req = reply_status status_code text ->
  status_code <> 401 ->
  outcome r = Raised (HTTPStatusError status_code text) /\
  requests r = [req] /\
  cache_after r = entries /\
  outcome resp = HTTPExceptionRaised 503 unavailable_msg /\
  cache_after resp = entries.
Proof.
  intros r resp Hin Hup Hcode.
  destruct (fetch_weather_contacted _ _ _ _ _ _ _ Hin)
    as (api_key & Hlat & Hlon & Hkey & Hmiss & -> & Hreq).
  assert (Hne : (status_code =? 401) = false) by by apply Z.eqb_neq.
  assert (Hr : r = raise entries [request_for api_key latitude longitude]
                     (HTTPStatusError status_code text)).
  { subst r. unfold fetch_weather. rewrite Hlat, Hlon, Hkey, Hmiss. simpl.
    by rewrite Hup, Hne. }
  subst resp. unfold endpoint_fetch_weather.
  rewrite (is_enabled_get_api_key _ _ Hkey). cbn [negb]. fold r. rewrite Hr.
  unfold raise, endpoint_except. cbn [outcome cache_after requests is_ValueError].
  by rewrite Hne.
Qed.

(** X3. A failure of the transfer itself (another [httpx.HTTPError]) leaves
    [fetch_weather] unchanged, after the one request and with the cache
    untouched; the endpoint turns it into status 503 as well. *)
Theorem transport_error_is_503
    settings upstream now timestamp entries latitude longitude req msg :
  let r := fetch_weather settings upstream now entries latitude longitude in
  let resp := endpoint_fetch_weather settings upstream now timestamp entries
                latitude longitude in
  In req (requests r) ->
  upstream req = reply_failed msg ->
  outcome r = Raised (HTTPError msg) /\
  requests r = [req] /\
  cache_after r = entries /\
  outcome resp = HTTPExceptionRaised 503 unavailable_msg /\
  cache_after resp = entries.
Proof.
  intros r resp Hin Hup.
  destruct (fetch_weather_contacted _ _ _ _ _ _ _ Hin)
    as (api_key & Hlat & Hlon & Hkey & Hmiss & -> & Hreq).
  assert (Hr : r = raise entries [request_for api_key latitude longitude]
                     (HTTPError msg)).
  { subst r. unfold fetch_weather. rewrite Hlat, Hlon, Hkey, Hmiss. simpl.
    by rewrite Hup. }
  subst resp. unfold endpoint_fetch_weather.
  rewrite (is_enabled_get_api_key _ _ Hkey). simpl. fold r. by rewrite Hr.
Qed.

(** X4. One call of [fetch_weather] sends at most one request, whatever
    the provider answers. The request goes to [OPENWEATHER_URL] with metric
    units, the configured key without surrounding white space, and the
    coordinates as given, not the rounded ones of the cache key. *)
Theorem at_most_one_request settings upstream now entries latitude longitude :
  let r := fetch_weather settings upstream now entries latitude longitude in
  (length (requests r) <= 1)%nat /\
  forall req, In req (requests r) ->
    exists key, weather_api_key settings = Some key /\
      req = {| url := OPENWEATHER_URL; param_lat := latitude;
               param_lon := longitude; param_appid := strip key;
               param_units := "metric" |}.
Proof.
  intros r. split.
  - destruct (requests r) as [|req rest] eqn:Hreqs; [simpl; lia|].
    assert (Hin : In req (requests r)) by (rewrite Hreqs; by left).
    destruct (fetch_weather_contacted _ _ _ _ _ _ _ Hin) as (? & _ & _ & _ & _ & _ & Hone).
    fold r in Hone. rewrite Hreqs in Hone. injection Hone as ->. simpl. lia.
  - intros req Hin.
    destruct (fetch_weather_contacted _ _ _ _ _ _ _ Hin)
      as (api_key & _ & _ & Hkey & _ & -> & _).
    destruct (get_api_key_Returned settings api_key Hkey) as (key & Hk & -> & _).
    by exists key.
Qed.

(** X5. The cache changes only when a reading was fetched from the
    provider: a call that sends no request (a hit included), and a call
    that returns no reading, leave every entry as it was; a call that
    returns a reading it requested leaves the cache as [_save_to_cache]
    makes it, and nothing else. *)
Theorem cache_written_only_on_fresh_reading
    settings upstream now entries latitude longitude :
  let r := fetch_weather settings upstream now entries latitude longitude in
  (requests r = [] -> cache_after r = entries) /\
  ((forall w, outcome r <> Returned (Some w)) -> cache_after r = entries) /\
  (forall w, outcome r = Returned (Some w) -> requests r <> [] ->
     cache_after r = _save_to_cache now entries latitude longitude w).
Proof.
  intros r. subst r. unfold fetch_weather.
  destruct (latitude_in_range latitude); simpl; [|done].
  destruct (longitude_in_range longitude); simpl; [|done].
  destruct (get_api_key settings) as [api_key|e]; simpl; [|done].
  destruct (_get_from_cache now entries latitude longitude); simpl; [done|].
  destruct (upstream _) as [data|m|code text|m]; simpl; try done.
  - destruct (_parse_openweather_response data) as [[w|]|e]; simpl; try done.
    repeat split; try done.
    + intros Hno. by destruct (Hno w).
    + by intros w' [= ->].
  - by destruct (code =? 401).
Qed.

(** X6. [_save_to_cache] touches the entry of its own key only: every
    other entry is as before, so a lookup under coordinates with another
    key sees what it saw; and of two saves under the same key the later
    one is what remains. *)
Theorem save_to_cache_frame now now2 entries latitude longitude latitude' longitude' w w2 :
  let saved := _save_to_cache now entries latitude longitude w in
  (forall k, k <> ("weather"%string, (_get_cache_key latitude longitude).1,
                   (_get_cache_key latitude longitude).2) ->
     saved !! k = entries !! k) /\
  (_get_cache_key latitude' longitude' <> _get_cache_key latitude longitude ->
     _get_from_cache now2 saved latitude' longitude'
       = _get_from_cache now2 entries latitude' longitude') /\
  _save_to_cache now2 saved latitude longitude w2
    = _save_to_cache now2 entries latitude longitude w2.
Proof.
  intros saved. subst saved. unfold _save_to_cache.
  destruct (_get_cache_key latitude longitude) as [scope_id cache_type] eqn:Hkey.
  simpl. unfold ScopedCache_set. simpl. split; [|split].
  - intros k Hk. by rewrite lookup_insert_ne.
  - intros Hne. unfold _get_from_cache, _get_from_cache_try.
    destruct (_get_cache_key latitude' longitude') as [scope_id' cache_type'].
    unfold ScopedCache_get. simpl. rewrite lookup_insert_ne; [done|].
    intros [= -> ->]. done.
  - by rewrite insert_insert_eq.
Qed.

(** X7. Every reading [fetch_weather] returns, served from the cache or
    fetched from the provider, meets the constraints of the schema:
    a humidity between 0 and 100 and a wind speed that is not negative. *)
Theorem fetched_reading_is_valid settings upstream now entries latitude longitude w :
  outcome (fetch_weather settings upstream now entries latitude longitude)
    = Returned (Some w) ->
  (forall h, humidity w = Some h -> 0 <= h <= 100) /\
  (forall x, wind_speed w = Some x -> PrimFloat.leb 0 x = true).
Proof.
  intros Hout.
  assert (Hvalid : valid_WeatherData w = true).
  { revert Hout. unfold fetch_weather.
    destruct (latitude_in_range latitude); simpl; [|done].
    destruct (longitude_in_range longitude); simpl; [|done].
    destruct (get_api_key settings) as [api_key|e]; simpl; [|done].
    destruct (_get_from_cache now entries latitude longitude) as [cached|] eqn:Hc; simpl.
    - intros [= ->]. revert Hc. unfold _get_from_cache, _get_from_cache_try.
      destruct (_get_cache_key latitude longitude) as [scope_id cache_type].
      destruct (ScopedCache_get _ _ _ _ _) as [cached_data|]; [|done].
      destruct (py_get cached_data "result" JNull) as [result_data|]; simpl; [|done].
      destruct result_data as [| | | | | |kv]; simpl; try done.
      destruct (WeatherData_init kv) as [w'|] eqn:Hw; simpl; [|done].
      intros [= ->]. by eapply WeatherData_init_valid.
    - destruct (upstream _) as [data|m|code text|m]; simpl; try done.
      + destruct (_parse_openweather_response data) as [[w'|]|e] eqn:Hp; simpl; try done.
        intros [= ->]. by eapply parse_Some_valid.
      + by destruct (code =? 401). }
  unfold valid_WeatherData in Hvalid. apply andb_prop in Hvalid as [Hh Hws].
  split.
  - intros h Hw. rewrite Hw in Hh. unfold humidity_ok in Hh. lia.
  - intros x Hw. by rewrite Hw in Hws.
Qed.

Lemma bind_Raised {A B : Type} (r : result A) (k : A -> result B) e :
  bind r k = Raised e -> r = Raised e \/ exists a, r = Returned a /\ k a = Raised e.
Proof. destruct r as [a|e']; simpl; intros Hr; [right; eauto | injection Hr as ->; by left]. Qed.

Lemma py_get_Raised v k d e : py_get v k d = Raised e -> e = AttributeError.
Proof. destruct v; simpl; congruence. Qed.

Lemma py_index0_Raised v e :
  py_index0 v = Raised e -> e = IndexError \/ e = KeyError \/ e = TypeError.
Proof.
  destruct v as [| | | |[|c s']|[|x l]|kv]; simpl; intros [= <-]; auto.
Qed.

Lemma int_truediv_Raised a b e : int_truediv a b = Raised e -> e = OverflowError.
Proof.
  unfold int_truediv. destruct a as [|m|m]; [done| |];
    match goal with
    | |- context [SFdiv ?p ?q ?x ?y] => destruct (SFdiv p q x y)
    end; congruence.
Qed.

Lemma celsius_to_fahrenheit_Raised t e :
  celsius_to_fahrenheit t = Raised e -> e = TypeError \/ e = OverflowError.
Proof.
  destruct t; simpl; intros Hr; try (injection Hr as <-; by left); try done;
    apply bind_Raised in Hr as [Hr | (q & _ & Hr)]; try done;
    apply int_truediv_Raised in Hr; by right.
Qed.

Lemma py_round1_Raised t e : py_round1 t = Raised e -> e = TypeError.
Proof. destruct t; simpl; congruence. Qed.

Lemma field_required_Raised {A : Type} (validate : json -> option A) kwargs name e :
  field_required validate kwargs name = Raised e -> e = ValidationError.
Proof.
  unfold field_required. destruct (dict_get name kwargs) as [v|]; [|congruence].
  destruct (validate v); congruence.
Qed.

Lemma field_optional_Raised {A : Type} (validate : json -> option A)
    (constraint : A -> bool) kwargs name e :
  field_optional validate constraint kwargs name = Raised e -> e = ValidationError.
Proof.
  unfold field_optional. destruct (dict_get name kwargs) as [v|]; [|congruence].
  destruct (validate v) as [a|]; [destruct (constraint a)|]; destruct v; congruence.
Qed.

Ltac raised_cases :=
  repeat match goal with
  | Hr : bind _ _ = Raised _ |- _ =>
      apply bind_Raised in Hr; destruct Hr as [Hr | (? & ? & Hr)]
  | Hr : Returned _ = Raised _ |- _ => discriminate Hr
  | Hr : py_get _ _ _ = Raised _ |- _ => apply py_get_Raised in Hr
  | Hr : py_round1 _ = Raised _ |- _ => apply py_round1_Raised in Hr
  | Hr : field_required _ _ _ = Raised _ |- _ => apply field_required_Raised in Hr
  | Hr : field_optional _ _ _ _ = Raised _ |- _ => apply field_optional_Raised in Hr
  end.

(** The constructor raises nothing but pydantic's [ValidationError]. *)
Lemma WeatherData_init_Raised kwargs e :
  WeatherData_init kwargs = Raised e -> e = ValidationError.
Proof. unfold WeatherData_init. intros Hr. raised_cases; done. Qed.

(** What the [try] block of the parse can raise. *)
Lemma parse_try_Raised data e :
  _parse_openweather_response_try data = Raised e ->
  e = AttributeError \/ e = IndexError \/ e = OverflowError \/
  e = KeyError \/ e = TypeError \/ e = ValidationError.
Proof.
  unfold _parse_openweather_response_try. intros Hr.
  apply bind_Raised in Hr as [Hr | (main & _ & Hr)]; [apply py_get_Raised in Hr; auto|].
  apply bind_Raised in Hr as [Hr | (wl & _ & Hr)]; [apply py_get_Raised in Hr; auto|].
  apply bind_Raised in Hr as [Hr | (weather & _ & Hr)].
  { apply py_index0_Raised in Hr. intuition. }
  apply bind_Raised in Hr as [Hr | (wind & _ & Hr)]; [apply py_get_Raised in Hr; auto|].
  apply bind_Raised in Hr as [Hr | (t & _ & Hr)]; [apply py_get_Raised in Hr; auto|].
  assert (Hk :
    (tf <- celsius_to_fahrenheit t ;;
     a_temp_c <- py_round1 t ;;
     a_condition <- py_get weather "main" (JStr "Unknown") ;;
     a_description <- py_get weather "description" JNull ;;
     a_humidity <- py_get main "humidity" JNull ;;
     a_wind_speed <- py_get wind "speed" JNull ;;
     a_pressure <- py_get main "pressure" JNull ;;
     a_visibility <- py_get data "visibility" JNull ;;
     a_icon <- py_get weather "icon" JNull ;;
     w0 <- WeatherData_init
            [ ("temp_c", a_temp_c); ("temp_f", JFloat (py_round 1 tf));
              ("condition", a_condition); ("description", a_description);
              ("humidity", a_humidity); ("wind_speed", a_wind_speed);
              ("pressure", a_pressure); ("visibility", a_visibility);
              ("icon", a_icon) ] ;;
     Returned (Some w0))%string = Raised e).
  { by destruct t. }
  clear Hr. apply bind_Raised in Hk as [Hk | (tf & _ & Hk)].
  { apply celsius_to_fahrenheit_Raised in Hk. intuition. }
  raised_cases;
    try match goal with
        | Hw : WeatherData_init _ = Raised _ |- _ => apply WeatherData_init_Raised in Hw
        end;
    subst; auto 10.
Qed.

(** X8. The only exceptions that leave [_parse_openweather_response] are
    [AttributeError], [IndexError] and [OverflowError]: it never raises a
    [KeyError], a [TypeError] or a [ValueError], pydantic's
    [ValidationError] included, for any payload. *)
Theorem parse_escaping_exceptions data e :
  _parse_openweather_response data = Raised e ->
  e = AttributeError \/ e = IndexError \/ e = OverflowError.
Proof.
  unfold _parse_openweather_response.
  destruct (_parse_openweather_response_try data) as [r|e'] eqn:Htry; [done|].
  destruct (parse_catches e') eqn:Hc; [done|]. intros [= <-].
  apply parse_try_Raised in Htry.
  destruct Htry as [-> | [-> | [-> | [-> | [-> | ->]]]]]; auto; discriminate.
Qed.

(** X9. For a payload that is an object, whose ["main"] is missing or an
    object, and that carries no temperature, the parse returns [None]
    without raising, unless ["weather"] is an empty list or an empty
    string (where [[0]] raises [IndexError]). *)
Theorem parse_without_temperature_returns_None kv :
  (dict_get "main" kv = None \/ exists main, dict_get "main" kv = Some (JObj main)) ->
  upstream_temperature (JObj kv) = None ->
  dict_get "weather" kv <> Some (JList []) ->
  dict_get "weather" kv <> Some (JStr EmptyString) ->
  _parse_openweather_response (JObj kv) = Returned None.
Proof.
  intros Hmain Hnone Hlist Hstr.
  unfold _parse_openweather_response, _parse_openweather_response_try.
  cbn [py_get bind].
  assert (Htemp : exists main,
            match dict_get "main" kv with Some x => x | None => JObj [] end = JObj main /\
            match dict_get "temp" main with Some x => x | None => JNull end = JNull).
  { unfold upstream_temperature in Hnone.
    destruct Hmain as [Hm | (main & Hm)]; rewrite Hm in *.
    - by exists [].
    - exists main. split; [done|].
      by destruct (dict_get "temp" main) as [[]|]. }
  destruct Htemp as (main & -> & Htemp).
  destruct (py_index0 _) as [weather|e] eqn:Hidx; cbn [bind py_get].
  - by rewrite Htemp.
  - apply py_index0_Raised in Hidx as Hcases.
    destruct Hcases as [-> | [-> | ->]]; try done.
    exfalso. destruct (dict_get "weather" kv) as [[| | | |[|c s']|[|x l]|m]|];
      simpl in Hidx; try discriminate; done.
Qed.

(** The parse of a payload whose structure is in order comes down to the
    construction of the reading. *)
Lemma parse_try_structured kv main weather wind t tf tcv :
  dict_get "main" kv = Some (JObj main) ->
  dict_get "temp" main = Some t ->
  t <> JNull ->
  celsius_to_fahrenheit t = Returned tf ->
  py_round1 t = Returned tcv ->
  weather_of kv = Some weather ->
  wind_of kv = Some wind ->
  _parse_openweather_response_try (JObj kv) =
    (w <- WeatherData_init
            [ ("temp_c", tcv); ("temp_f", JFloat (py_round 1 tf));
              ("condition", match dict_get "main" weather with
                            | Some x => x | None => JStr "Unknown" end);
              ("description", match dict_get "description" weather with
                              | Some x => x | None => JNull end);
              ("humidity", match dict_get "humidity" main with
                           | Some x => x | None => JNull end);
              ("wind_speed", match dict_get "speed" wind with
                             | Some x => x | None => JNull end);
              ("pressure", match dict_get "pressure" main with
                           | Some x => x | None => JNull end);
              ("visibility", match dict_get "visibility" kv with
                             | Some x => x | None => JNull end);
              ("icon", match dict_get "icon" weather with
                       | Some x => x | None => JNull end) ] ;;
     Returned (Some w))%string.
Proof.
  intros Hmain Htemp Hnull Htf Htc Hweather Hwind.
  assert (Hm : py_get (JObj kv) "main" (JObj []) = Returned (JObj main)).
  { simpl. by rewrite Hmain. }
  assert (Hw : exists wl, py_get (JObj kv) "weather" (JList [JObj []]) = Returned wl /\
                          py_index0 wl = Returned (JObj weather)).
  { unfold weather_of in Hweather. simpl.
    destruct (dict_get "weather" kv) as [[| | | | |[|[] ?]|]|]; try discriminate;
      injection Hweather as <-; eauto. }
  destruct Hw as (wl & Hwl & Hidx).
  assert (Hwi : py_get (JObj kv) "wind" (JObj []) = Returned (JObj wind)).
  { unfold wind_of in Hwind. simpl.
    destruct (dict_get "wind" kv) as [[]|]; simpl; congruence. }
  assert (Ht : py_get (JObj main) "temp" JNull = Returned t).
  { simpl. by rewrite Htemp. }
  unfold _parse_openweather_response_try.
  rewrite Hm. cbn [bind]. rewrite Hwl. cbn [bind]. rewrite Hidx. cbn [bind].
  rewrite Hwi. cbn [bind]. rewrite Ht. cbn [bind].
  match goal with
  | |- match t with JNull => _ | JBool _ => ?K | _ => _ end = _ =>
      transitivity K; [by destruct t|]
  end.
  rewrite Htf. cbn [bind]. rewrite Htc. cbn [bind]. cbv zeta.
  cbn [py_get bind]. reflexivity.
Qed.

(** X10. When the structure of the payload is in order (["main"] an object
    with a numeric temperature, ["weather"] missing or a list that starts
    with an object, ["wind"] missing or an object) the parse never raises,
    whatever the values of the other fields are: it returns [None], or a
    reading with the two temperatures computed from the upstream one. *)
Theorem parse_structured_never_raises kv main weather wind t tcel tfah :
  dict_get "main" kv = Some (JObj main) ->
  dict_get "temp" main = Some t ->
  stored_temperatures t = Some (tcel, tfah) ->
  weather_of kv = Some weather ->
  wind_of kv = Some wind ->
  _parse_openweather_response (JObj kv) = Returned None \/
  exists w, _parse_openweather_response (JObj kv) = Returned (Some w) /\
            temp_c w = tcel /\ temp_f w = tfah.
Proof.
  intros Hmain Htemp Hst Hweather Hwind.
  apply stored_temperatures_parse in Hst as (Hnull & tf & tcv & Htf & Htc & Hv & ->).
  unfold _parse_openweather_response.
  rewrite (parse_try_structured _ _ _ _ _ _ _ Hmain Htemp Hnull Htf Htc Hweather Hwind).
  destruct (WeatherData_init _) as [w|e] eqn:Hw; cbn [bind].
  - right. exists w. split; [done|].
    unfold WeatherData_init in Hw.
    apply bind_Returned in Hw as (x1 & Hx1 & Hw).
    apply bind_Returned in Hw as (x2 & Hx2 & Hw).
    apply field_required_Returned in Hx1 as (v1 & Hv1 & Hx1).
    apply field_required_Returned in Hx2 as (v2 & Hv2 & Hx2).
    simpl in Hv1, Hv2. injection Hv1 as <-. injection Hv2 as <-.
    simpl in Hx2. injection Hx2 as <-.
    assert (x1 = tcel) as -> by congruence.
    repeat (apply bind_Returned in Hw as (? & _ & Hw)).
    by injection Hw as <-.
  - left. apply WeatherData_init_Raised in Hw as ->. reflexivity.
Qed.

(** X11. With the structure in order, a humidity outside 0..100 or a
    negative wind speed does not yield a reading without that field: the
    whole parse returns [None]. *)
Theorem parse_constraint_violation_returns_None
    kv main weather wind t tcel tfah :
  dict_get "main" kv = Some (JObj main) ->
  dict_get "temp" main = Some t ->
  stored_temperatures t = Some (tcel, tfah) ->
  weather_of kv = Some weather ->
  wind_of kv = Some wind ->
  (exists h, dict_get "humidity" main = Some (JInt h) /\ (h < 0 \/ 100 < h)) \/
  (exists x, dict_get "speed" wind = Some (JFloat x) /\ PrimFloat.leb 0 x = false) ->
  _parse_openweather_response (JObj kv) = Returned None.
Proof.
  intros Hmain Htemp Hst Hweather Hwind Hbad.
  apply stored_temperatures_parse in Hst as (Hnull & tf & tcv & Htf & Htc & Hv & ->).
  unfold _parse_openweather_response.
  rewrite (parse_try_structured _ _ _ _ _ _ _ Hmain Htemp Hnull Htf Htc Hweather Hwind).
  destruct (WeatherData_init _) as [w|e] eqn:Hw; cbn [bind].
  - exfalso. unfold WeatherData_init in Hw.
    apply bind_Returned in Hw as (x1 & _ & Hw).
    apply bind_Returned in Hw as (x2 & _ & Hw).
    apply bind_Returned in Hw as (x3 & _ & Hw).
    apply bind_Returned in Hw as (x4 & _ & Hw).
    apply bind_Returned in Hw as (x5 & Hx5 & Hw).
    apply bind_Returned in Hw as (x6 & Hx6 & Hw).
    unfold field_optional in Hx5, Hx6. simpl in Hx5, Hx6.
    destruct Hbad as [(h & Hh & Hrange) | (x & Hx & Hneg)].
    + rewrite Hh in Hx5. simpl in Hx5.
      assert (humidity_ok h = false) as Hok by (unfold humidity_ok; lia).
      by rewrite Hok in Hx5.
    + rewrite Hx in Hx6. simpl in Hx6. unfold wind_speed_ok in Hx6.
      by rewrite Hneg in Hx6.
  - apply WeatherData_init_Raised in Hw as ->. reflexivity.
Qed.

(** X12. Without a usable key (none configured, or a blank one) the
    endpoint does not call the service at all: for any coordinates, valid
    or not, it answers the disabled response with status 200, sends no
    request and leaves the cache as it was. *)
Theorem endpoint_disabled_skips_service
    settings upstream now timestamp entries latitude longitude :
  (weather_api_key settings = None \/
   exists key, weather_api_key settings = Some key /\ strip key = EmptyString) ->
  endpoint_fetch_weather settings upstream now timestamp entries latitude longitude
  = {| outcome := WeatherServiceDisabledResponse false endpoint_not_configured_msg;
       cache_after := entries; requests := [] |}.
Proof.
  intros Hkey. unfold endpoint_fetch_weather.
  assert (is_enabled settings = false) as ->; [|done].
  unfold is_enabled, get_api_key.
  destruct Hkey as [-> | (key & -> & Hs)]; [done|].
  rewrite Hs. simpl. by rewrite orb_true_r.
Qed.

(** X13. The endpoint answers with status 200, 500 or 503 and no other.
    It answers with the fetch response exactly when the service returned a
    reading, and then the response carries that reading, the provider name
    ["openweather"] and the timestamp it was given; a disabled response
    always has [enabled] false. *)
Theorem endpoint_status_codes
    settings upstream now timestamp entries latitude longitude :
  let r := fetch_weather settings upstream now entries latitude longitude in
  let resp := endpoint_fetch_weather settings upstream now timestamp entries
                latitude longitude in
  (http_status (outcome resp) = 200 \/ http_status (outcome resp) = 500 \/
   http_status (outcome resp) = 503) /\
  (forall w provider ts,
     outcome resp = WeatherFetchResponse w provider ts <->
     is_enabled settings = true /\ outcome r = Returned (Some w) /\
     provider = "openweather"%string /\ ts = timestamp) /\
  (forall enabled message,
     outcome resp = WeatherServiceDisabledResponse enabled message -> enabled = false).
Proof.
  intros r resp. subst resp. unfold endpoint_fetch_weather.
  destruct (is_enabled settings) eqn:Hen; cbn [negb outcome].
  - fold r. destruct (outcome r) as [[w0|]|e] eqn:Hout.
    + split; [by left|]. split; [|discriminate].
      intros w provider ts. split.
      * intros Heq. by injection Heq as -> <- <-.
      * intros (_ & Heq & -> & ->). by injection Heq as ->.
    + simpl. split; [right; by left|]. split; [|discriminate].
      intros w provider ts. split; [discriminate|]. by intros (_ & ? & _).
    + assert (Hshape :
        (exists m, endpoint_except e = WeatherServiceDisabledResponse false m) \/
        (exists d, endpoint_except e = HTTPExceptionRaised 500 d) \/
        (exists d, endpoint_except e = HTTPExceptionRaised 503 d)).
      { unfold endpoint_except.
        destruct e; simpl; eauto; destruct (status_code =? 401); eauto. }
      destruct Hshape as [(m & ->) | [(d & ->) | (d & ->)]]; simpl.
      * split; [by left|]. split; [|by intros ? ? [= <- _]].
        intros w provider ts. split; [discriminate|]. by intros (_ & ? & _).
      * split; [right; by left|]. split; [|discriminate].
        intros w provider ts. split; [discriminate|]. by intros (_ & ? & _).
      * split; [right; by right|]. split; [|discriminate].
        intros w provider ts. split; [discriminate|]. by intros (_ & ? & _).
  - split; [by left|]. split; [|by intros ? ? [= <- _]].
    intros w provider ts. split; [discriminate|]. by intros (? & _).
Qed.

(** X14. With a key configured, coordinates out of range reach the
    endpoint's handler for [ValueError]: the answer is the disabled
    response, status 200, whose message is the text of the coordinate
    error; nothing is requested and the cache is left as it was. *)
Theorem endpoint_invalid_coordinates
    settings upstream now timestamp entries latitude longitude :
  let resp := endpoint_fetch_weather settings upstream now timestamp entries
                latitude longitude in
  is_enabled settings = true ->
  (latitude_in_range latitude = false ->
     resp = {| outcome := WeatherServiceDisabledResponse false
                            (invalid_latitude_msg latitude);
               cache_after := entries; requests := [] |}) /\
  (latitude_in_range latitude = true -> longitude_in_range longitude = false ->
     resp = {| outcome := WeatherServiceDisabledResponse false
                            (invalid_longitude_msg longitude);
               cache_after := entries; requests := [] |}).
Proof.
  intros resp Hen. subst resp. unfold endpoint_fetch_weather, fetch_weather.
  rewrite Hen. split.
  - by intros ->.
  - by intros -> ->.
Qed.

(** X15. A body that [response.json()] cannot decode makes the service
    raise the decoder's error, a [ValueError]; the endpoint's handler for
    [ValueError] answers it with the disabled response, status 200, whose
    message is the decoder's; the cache is left as it was. *)
Theorem undecodable_body_is_disabled_response
    settings upstream now timestamp entries latitude longitude req msg :
  let r := fetch_weather settings upstream now entries latitude longitude in
  let resp := endpoint_fetch_weather settings upstream now timestamp entries
                latitude longitude in
  In req (requests r) ->
  upstream req = reply_bad_json msg ->
  outcome r = Raised (JSONDecodeError msg) /\
  cache_after r = entries /\
  resp = {| outcome := WeatherServiceDisabledResponse false msg;
            cache_after := entries; requests := [req] |}.
Proof.
  intros r resp Hin Hup.
  destruct (fetch_weather_contacted _ _ _ _ _ _ _ Hin)
    as (api_key & Hlat & Hlon & Hkey & Hmiss & -> & Hreq).
  assert (Hr : r = raise entries [request_for api_key latitude longitude]
                     (JSONDecodeError msg)).
  { subst r. unfold fetch_weather. rewrite Hlat, Hlon, Hkey, Hmiss. simpl.
    by rewrite Hup. }
  subst resp. unfold endpoint_fetch_weather.
  rewrite (is_enabled_get_api_key _ _ Hkey). cbn [negb]. fold r. by rewrite Hr.
Qed.

(** X16. Coordinates that passed the validation of [WeatherFetchRequest]
    pass the range checks of [fetch_weather]: the schema and the service
    agree, so for a validated request the service raises neither of its
    coordinate errors. *)
Theorem validated_request_passes_range_checks
    (body : list (string * json)) (q : RequestSchema.WeatherFetchRequest)
    settings upstream now entries :
  RequestSchema.WeatherFetchRequest_init body = Returned q ->
  let r := fetch_weather settings upstream now entries
             (RequestSchema.latitude q) (RequestSchema.longitude q) in
  latitude_in_range (RequestSchema.latitude q) = true /\
  longitude_in_range (RequestSchema.longitude q) = true /\
  (forall x, outcome r <> Raised (ValueError (invalid_latitude_msg x))) /\
  (forall x, outcome r <> Raised (ValueError (invalid_longitude_msg x))).
Proof.
  intros Hq r. unfold RequestSchema.WeatherFetchRequest_init in Hq.
  apply bind_Returned in Hq as (la & Hla & Hq).
  apply bind_Returned in Hq as (lo & Hlo & Hq). injection Hq as <-. simpl in *.
  unfold RequestSchema.field_bounded in Hla, Hlo.
  apply bind_Returned in Hla as (la' & _ & Hla).
  apply bind_Returned in Hlo as (lo' & _ & Hlo).
  destruct (PrimFloat.leb (-90) la' && PrimFloat.leb la' 90) eqn:Hlat; [|done].
  destruct (PrimFloat.leb (-180) lo' && PrimFloat.leb lo' 180) eqn:Hlon; [|done].
  injection Hla as ->. injection Hlo as ->.
  repeat split; try done.
  - intros x E. subst r.
    destruct (fetch_weather_ValueError _ _ _ _ _ _ _ Hlat Hlon E) as [E'|E']; revert E'.
    + apply invalid_latitude_msg_not_configured.
    + apply invalid_latitude_msg_not_api_key.
  - intros x E. subst r.
    destruct (fetch_weather_ValueError _ _ _ _ _ _ _ Hlat Hlon E) as [E'|E']; revert E'.
    + apply invalid_longitude_msg_not_configured.
    + apply invalid_longitude_msg_not_api_key.
Qed.

(** X17. An exception that leaves the parse (an [AttributeError],
    [IndexError] or [OverflowError]) leaves [fetch_weather] too, with the
    cache untouched, and the endpoint's last handler turns it into an
    [HTTPException] with status 500. *)
Theorem parse_exception_is_http_500
    settings upstream now timestamp entries latitude longitude req data e :
  let r := fetch_weather settings upstream now entries latitude longitude in
  let resp := endpoint_fetch_weather settings upstream now timestamp entries
                latitude longitude in
  In req (requests r) ->
  upstream req = reply_json data ->
  _parse_openweather_response data = Raised e ->
  outcome r = Raised e /\
  cache_after r = entries /\
  resp = {| outcome := HTTPExceptionRaised 500
                         "An error occurred while fetching weather data";
            cache_after := entries; requests := [req] |}.
Proof.
  intros r resp Hin Hup Hp.
  destruct (fetch_weather_contacted _ _ _ _ _ _ _ Hin)
    as (api_key & Hlat & Hlon & Hkey & Hmiss & -> & Hreq).
  assert (Hr : r = raise entries [request_for api_key latitude longitude] e).
  { subst r. unfold fetch_weather. rewrite Hlat, Hlon, Hkey, Hmiss. simpl.
    by rewrite Hup, Hp. }
  assert (He : e = AttributeError \/ e = IndexError \/ e = OverflowError).
  { revert Hp. unfold _parse_openweather_response.
    destruct (_parse_openweather_response_try data) as [?|e'] eqn:Htry; [done|].
    destruct (parse_catches e') eqn:Hc; [done|]. intros [= <-].
    apply parse_try_Raised in Htry.
    destruct Htry as [-> | [-> | [-> | [-> | [-> | ->]]]]]; auto; discriminate. }
  subst resp. unfold endpoint_fetch_weather.
  rewrite (is_enabled_get_api_key _ _ Hkey). cbn [negb]. fold r. rewrite Hr.
  by destruct He as [-> | [-> | ->]].
Qed.

(** X18. Two calls of the endpoint: when the first one fetched a reading
    from the provider, a second one under the same settings, within the 30
    minutes and for coordinates in range with the same cache key, answers
    with the same reading under its own timestamp, sends no request and
    leaves the cache as the first call left it. *)
Theorem endpoint_second_call_is_served_from_cache
    settings upstream upstream2 now now2 timestamp timestamp2 entries
    latitude longitude latitude2 longitude2 w provider ts :
  let first := endpoint_fetch_weather settings upstream now timestamp entries
                 latitude longitude in
  outcome first = WeatherFetchResponse w provider ts ->
  requests first <> [] ->
  latitude_in_range latitude2 = true ->
  longitude_in_range longitude2 = true ->
  _get_cache_key latitude2 longitude2 = _get_cache_key latitude longitude ->
  now2 <= now + CACHE_TTL_SECONDS ->
  endpoint_fetch_weather settings upstream2 now2 timestamp2 (cache_after first)
    latitude2 longitude2
  = {| outcome := WeatherFetchResponse w "openweather" timestamp2;
       cache_after := cache_after first; requests := [] |}.
Proof.
  intros first Hout Hreq Hlat2 Hlon2 Hsame Hnow2. subst first.
  revert Hout Hreq. unfold endpoint_fetch_weather.
  destruct (is_enabled settings) eqn:Hen; cbn [negb outcome requests cache_after];
    [|done].
  set (r := fetch_weather settings upstream now entries latitude longitude).
  intros Hout Hreq.
  assert (Hr : outcome r = Returned (Some w)).
  { destruct (outcome r) as [[w0|]|e]; [congruence| |].
    - unfold endpoint_except in Hout. simpl in Hout. discriminate.
    - unfold endpoint_except in Hout.
      destruct (is_ValueError e); [discriminate|].
      destruct e; try discriminate. by destruct (status_code =? 401). }
  destruct (requests r) as [|req rest] eqn:Hreqs; [done|].
  assert (Hin : In req (requests r)) by (rewrite Hreqs; by left).
  destruct (fetch_weather_contacted _ _ _ _ _ _ _ Hin)
    as (api_key & Hlat & Hlon & Hkey & Hmiss & _ & _).
  assert (Hsaved : cache_after r = _save_to_cache now entries latitude longitude w
                   /\ valid_WeatherData w = true).
  { revert Hr. subst r. unfold fetch_weather.
    rewrite Hlat, Hlon, Hkey, Hmiss. simpl.
    destruct (upstream _) as [data|m|code text|m]; simpl; try done.
    - destruct (_parse_openweather_response data) as [[w'|]|e'] eqn:Hp; simpl; try done.
      intros [= ->]. split; [done|]. by eapply parse_Some_valid.
    - by destruct (code =? 401). }
  destruct Hsaved as [Hsaved Hvalid]. rewrite Hsaved.
  unfold fetch_weather. rewrite Hlat2, Hlon2, Hkey. simpl.
  by rewrite (get_from_cache_after_save _ _ _ _ _ _ _ _ Hvalid Hnow2 Hsame).
Qed.

Lemma get_from_cache_Some now entries latitude longitude w :
  _get_from_cache now entries latitude longitude = Some w <->
  exists e kv result_data,
    entries !! ("weather"%string, (_get_cache_key latitude longitude).1,
                (_get_cache_key latitude longitude).2) = Some e /\
    now <= expires_at e /\
    value e = JObj kv /\
    dict_get "result" kv = Some result_data /\
    WeatherData_splat result_data = Returned w.
Proof.
  unfold _get_from_cache, _get_from_cache_try, ScopedCache_get.
  destruct (_get_cache_key latitude longitude) as [scope_id cache_type]. simpl.
  split.
  - destruct (entries !! _) as [e|] eqn:He; [|done].
    destruct (now <=? expires_at e) eqn:Hle; [|done].
    destruct (value e) as [| | | | | |kv] eqn:Hv; simpl; try done.
    destruct (dict_get "result" kv) as [res|] eqn:Hres; [|done].
    destruct res as [| | | | | |rkv]; simpl; try done.
    destruct (WeatherData_init rkv) as [w'|] eqn:Hw; simpl; [|done].
    intros [= ->]. exists e, kv, (JObj rkv). repeat split; try done. lia.
  - intros (e & kv & res & -> & Hle & -> & Hres & Hw).
    destruct (now <=? expires_at e) eqn:Hle'; [|lia]. simpl. rewrite Hres.
    destruct res as [| | | | | |rkv]; simpl in Hw; try discriminate.
    simpl. by rewrite Hw.
Qed.

(** X19. What a cache hit is, and what it depends on. [_get_from_cache]
    returns a reading exactly when there is an entry under the key of the
    coordinates that has not expired, whose value is a dict with a
    ["result"] from which the constructor builds that reading; any other
    entry (not a dict, no ["result"], a ["result"] that fails validation)
    counts as a miss. The lookup reads the entry of its own key only; a
    hit now was a hit with the same reading at any earlier time. With
    coordinates in range and a key configured, [fetch_weather] spares the
    provider exactly on a hit, and then returns the reading of the hit. *)
Theorem cache_hit_characterised settings upstream now entries latitude longitude :
  let key := ("weather"%string, (_get_cache_key latitude longitude).1,
              (_get_cache_key latitude longitude).2) in
  let r := fetch_weather settings upstream now entries latitude longitude in
  (forall w,
     _get_from_cache now entries latitude longitude = Some w <->
     exists e kv result_data,
       entries !! key = Some e /\
       now <= expires_at e /\
       value e = JObj kv /\
       dict_get "result" kv = Some result_data /\
       WeatherData_splat result_data = Returned w) /\
  (forall entries',
     entries' !! key = entries !! key ->
     _get_from_cache now entries' latitude longitude
     = _get_from_cache now entries latitude longitude) /\
  (forall earlier w,
     earlier <= now ->
     _get_from_cache now entries latitude longitude = Some w ->
     _get_from_cache earlier entries latitude longitude = Some w) /\
  (latitude_in_range latitude = true ->
   longitude_in_range longitude = true ->
   is_enabled settings = true ->
   (requests r = [] <->
    exists w, _get_from_cache now entries latitude longitude = Some w) /\
   (forall w, _get_from_cache now entries latitude longitude = Some w ->
              outcome r = Returned (Some w))).
Proof.
  intros key r. split; [|split; [|split]].
  - intros w. apply get_from_cache_Some.
  - intros entries' Hsame. subst key.
    unfold _get_from_cache, _get_from_cache_try, ScopedCache_get.
    destruct (_get_cache_key latitude longitude) as [scope_id cache_type].
    simpl in *. by rewrite Hsame.
  - intros earlier w Hle Hhit.
    apply get_from_cache_Some in Hhit as (e & kv & res & He & Hnow & Hrest).
    apply get_from_cache_Some. exists e, kv, res. repeat split; try tauto. lia.
  - intros Hlat Hlon Hen. subst r. unfold fetch_weather, is_enabled in *.
    rewrite Hlat, Hlon. simpl.
    destruct (get_api_key settings) as [api_key|]; [|done].
    destruct (_get_from_cache now entries latitude longitude) as [cached|] eqn:Hhit.
    + simpl. split; [split; eauto|]. by intros w [= ->].
    + split; [|done]. split; [|by intros (w & ?)].
      destruct (upstream _) as [data|m|code text|m]; simpl; try done.
      * by destruct (_parse_openweather_response data) as [[w'|]|e'].
      * by destruct (code =? 401).
Qed.

End WeatherExtras.

(* ===================================================================== *)
(** * Further properties of the migration and of the test helper          *)
(* ===================================================================== *)

Module MigrationExtras.
Import Migration.

(** X20. [downgrade] undoes [upgrade]: whatever the dialect of either,
    downgrading the upgraded table gives back the rows of the table as
    they were, in their order. *)
Theorem downgrade_upgrade (up_is_sqlite down_is_sqlite : bool) (t : list user_row) :
  downgrade down_is_sqlite (upgrade up_is_sqlite t) = t.
Proof.
  assert (Hrows : map row (upgrade up_is_sqlite t) = t).
  { rewrite MigrationTheory.upgrade_unfold. unfold promote_earliest.
    destruct (select_earliest _) as [first|]; rewrite ?map_map.
    - rewrite <- (map_id t) at 2. apply map_ext. intros r. simpl.
      by destruct (String.eqb (id r) (id (row first))).
    - rewrite <- (map_id t) at 2. by apply map_ext. }
  unfold downgrade. destruct down_is_sqlite; [|done].
  rewrite <- Hrows at 2. apply map_ext. intros r. by destruct (row r).
Qed.

(** X21. When one row was created strictly before every other, it is that
    row, and no other, that [upgrade] makes admin, wherever it stands in
    the table (the ids being distinct). *)
Theorem upgrade_promotes_the_strictly_earliest
    (is_sqlite : bool) (t : list user_row) (e : user_row) :
  NoDup (map id t) ->
  In e t ->
  (forall r, In r t -> id r <> id e -> created_at e < created_at r) ->
  In {| row := e; role := "admin" |} (upgrade is_sqlite t) /\
  forall r', In r' (upgrade is_sqlite t) ->
    (role r' = "admin"%string <-> row r' = e) /\
    (role r' = "user"%string <-> row r' <> e).
Proof.
  intros Hnd He Hstrict.
  destruct (MigrationTheory.upgrade_promotes_earliest is_sqlite t) as
    (earliest & Hin & Hmin & _ & Hadmin & Hrole); [by destruct t|done|].
  assert (earliest = e) as ->.
  { destruct (String.eqb (id earliest) (id e)) eqn:Heq.
    - apply String.eqb_eq in Heq. by eapply MigrationTheory.same_id_same_row.
    - apply String.eqb_neq in Heq. specialize (Hstrict earliest Hin Heq).
      specialize (Hmin e He). lia. }
  split; [done|]. intros r' Hr'. destruct (Hrole r' Hr') as [Hiff Hcases].
  split; [done|]. split.
  - intros Hu Hrow. apply Hiff in Hrow. rewrite Hrow in Hu. discriminate.
  - intros Hne. destruct Hcases as [Ha|Hu]; [|done]. by apply Hiff in Ha.
Qed.

End MigrationExtras.

Lemma append_cancel_l (a s1 s2 : string) : a +:+ s1 = a +:+ s2 -> s1 = s2.
Proof. induction a as [|c a IH]; simpl; [done|]. intros [= H]. by apply IH. Qed.

Lemma append_length (s1 s2 : string) :
  String.length (s1 +:+ s2) = (String.length s1 + String.length s2)%nat.
Proof. induction s1 as [|c s1 IH]; simpl; [done|]. by rewrite IH. Qed.

Lemma append_cancel_r (b s1 s2 : string) : s1 +:+ b = s2 +:+ b -> s1 = s2.
Proof.
  revert s2. induction s1 as [|c s1 IH]; intros [|d s2] Heq; simpl in Heq.
  - done.
  - apply (f_equal String.length) in Heq.
    rewrite !append_length in Heq. simpl in Heq. lia.
  - apply (f_equal String.length) in Heq.
    rewrite !append_length in Heq. simpl in Heq. lia.
  - injection Heq as -> Heq. f_equal. by apply IH.
Qed.

(** X22. [_unique_credentials] is as unique as its random suffix: under
    one prefix two suffixes give the same e-mail address only if they are
    the same suffix, and two suffixes give the same password only if they
    are the same, whatever the prefixes. *)
Theorem unique_credentials_injective (prefix prefix2 suffix1 suffix2 : string) :
  ((_unique_credentials prefix suffix1).1 = (_unique_credentials prefix suffix2).1 ->
   suffix1 = suffix2) /\
  ((_unique_credentials prefix suffix1).2 = (_unique_credentials prefix2 suffix2).2 ->
   suffix1 = suffix2).
Proof.
  unfold _unique_credentials. cbn [fst snd]. split.
  - intros Heq. apply append_cancel_l in Heq. apply (append_cancel_l "-") in Heq.
    by apply append_cancel_r in Heq.
  - intros Heq. apply (append_cancel_l "Pass-") in Heq.
    by apply append_cancel_r in Heq.
Qed.

(* ===================================================================== *)
(** * The further properties on concrete inputs                           *)
(* ===================================================================== *)

(** A provider that answers 429. *)
Lemma upstream_status_error_is_503_witness :
  In sample_request
     (requests (fetch_weather (rt := sample_runtime) sample_settings
                  (fun _ => reply_status 429 "slow down") 0 empty_cache 37.75 (-122.5))) /\
  outcome (endpoint_fetch_weather (rt := sample_runtime) sample_settings
             (fun _ => reply_status 429 "slow down") 0 "2025-12-05T10:30:00Z"
             empty_cache 37.75 (-122.5))
    = HTTPExceptionRaised 503 unavailable_msg.
Proof.
  assert (Hin : In sample_request
     (requests (fetch_weather (rt := sample_runtime) sample_settings
                  (fun _ => reply_status 429 "slow down") 0 empty_cache 37.75 (-122.5)))).
  { vm_compute. left. reflexivity. }
  split; [exact Hin|].
  apply (upstream_status_error_is_503 (rt := sample_runtime) _ _ _
           "2025-12-05T10:30:00Z" _ _ _ sample_request 429 "slow down" Hin eq_refl).
  discriminate.
Defined.

(** A provider that cannot be reached. *)
Lemma transport_error_is_503_witness :
  In sample_request
     (requests (fetch_weather (rt := sample_runtime) sample_settings
                  (fun _ => reply_failed "timed out") 0 empty_cache 37.75 (-122.5))) /\
  outcome (endpoint_fetch_weather (rt := sample_runtime) sample_settings
             (fun _ => reply_failed "timed out") 0 "2025-12-05T10:30:00Z"
             empty_cache 37.75 (-122.5))
    = HTTPExceptionRaised 503 unavailable_msg.
Proof.
  assert (Hin : In sample_request
     (requests (fetch_weather (rt := sample_runtime) sample_settings
                  (fun _ => reply_failed "timed out") 0 empty_cache 37.75 (-122.5)))).
  { vm_compute. left. reflexivity. }
  split; [exact Hin|].
  apply (transport_error_is_503 (rt := sample_runtime) _ _ _
           "2025-12-05T10:30:00Z" _ _ _ sample_request "timed out" Hin eq_refl).
Defined.

(** The reading fetched for the full payload. *)
Lemma fetched_reading_is_valid_witness :
  outcome (fetch_weather (rt := sample_runtime) sample_settings
             (fun _ => reply_json payload_full) 0 empty_cache 37.75 (-122.5))
    = Returned (Some reading_full) /\
  (forall h, humidity reading_full = Some h -> 0 <= h <= 100).
Proof.
  assert (Hout : outcome (fetch_weather (rt := sample_runtime) sample_settings
             (fun _ => reply_json payload_full) 0 empty_cache 37.75 (-122.5))
    = Returned (Some reading_full)) by (vm_compute; reflexivity).
  split; [exact Hout|].
  exact (proj1 (fetched_reading_is_valid (rt := sample_runtime) _ _ _ _ _ _ _ Hout)).
Defined.

(** The empty ["weather"] list, and a temperature beyond the floats. *)
Lemma parse_escaping_exceptions_witness :
  _parse_openweather_response (rt := sample_runtime) payload_weather_empty
    = Raised IndexError /\
  _parse_openweather_response (rt := sample_runtime) payload_huge_temp
    = Raised OverflowError /\
  (IndexError = AttributeError \/ IndexError = IndexError \/ IndexError = OverflowError).
Proof.
  assert (Hp : _parse_openweather_response (rt := sample_runtime) payload_weather_empty
               = Raised IndexError) by (vm_compute; reflexivity).
  split; [exact Hp|]. split; [vm_compute; reflexivity|].
  exact (parse_escaping_exceptions (rt := sample_runtime) _ _ Hp).
Defined.

(** A payload with a humidity and no temperature. *)
Lemma parse_without_temperature_returns_None_witness :
  upstream_temperature payload_no_temp = None /\
  _parse_openweather_response (rt := sample_runtime) payload_no_temp = Returned None.
Proof.
  split; [reflexivity|].
  apply (parse_without_temperature_returns_None (rt := sample_runtime)).
  - right. eexists. reflexivity.
  - reflexivity.
  - discriminate.
  - discriminate.
Defined.

(** A payload with a temperature and a humidity of 150. *)
Lemma parse_structured_never_raises_witness :
  stored_temperatures (JFloat 18.5) = Some (18.5%float, 0x1.0533333333333p+6%float) /\
  (_parse_openweather_response (rt := sample_runtime) payload_humid = Returned None \/
   exists w, _parse_openweather_response (rt := sample_runtime) payload_humid
             = Returned (Some w) /\
             temp_c w = 18.5%float /\ temp_f w = 0x1.0533333333333p+6%float).
Proof.
  assert (Hst : stored_temperatures (JFloat 18.5)
                = Some (18.5%float, 0x1.0533333333333p+6%float))
    by (vm_compute; reflexivity).
  split; [exact Hst|].
  exact (parse_structured_never_raises (rt := sample_runtime)
           [("main", JObj [("temp", JFloat 18.5); ("humidity", JInt 150)])]%string
           [("temp", JFloat 18.5); ("humidity", JInt 150)]%string [] [] (JFloat 18.5)
           _ _ eq_refl eq_refl Hst eq_refl eq_refl).
Defined.

Lemma parse_constraint_violation_returns_None_witness :
  100 < 150 /\
  _parse_openweather_response (rt := sample_runtime) payload_humid = Returned None.
Proof.
  split; [lia|].
  apply (parse_constraint_violation_returns_None (rt := sample_runtime)
           [("main", JObj [("temp", JFloat 18.5); ("humidity", JInt 150)])]%string
           [("temp", JFloat 18.5); ("humidity", JInt 150)]%string [] [] (JFloat 18.5)
           18.5%float 0x1.0533333333333p+6%float eq_refl eq_refl);
    [vm_compute; reflexivity|reflexivity|reflexivity|].
  left. exists 150. split; [reflexivity|lia].
Defined.

(** A key of three spaces, and coordinates out of range. *)
Lemma endpoint_disabled_skips_service_witness :
  strip "   " = EmptyString /\
  endpoint_fetch_weather (rt := sample_runtime) blank_settings
    (fun _ => reply_json payload_full) 60 "2025-12-05T10:30:00Z" sample_cache 95 0
  = {| outcome := WeatherServiceDisabledResponse false endpoint_not_configured_msg;
       cache_after := sample_cache; requests := [] |} /\
  strip (utf8_encode 160 +:+ utf8_encode 133) = EmptyString /\
  endpoint_fetch_weather (rt := sample_runtime) unicode_blank_settings
    (fun _ => reply_json payload_full) 60 "2025-12-05T10:30:00Z" sample_cache 37.75 (-122.5)
  = {| outcome := WeatherServiceDisabledResponse false endpoint_not_configured_msg;
       cache_after := sample_cache; requests := [] |}.
Proof.
  split; [reflexivity|]. split.
  - apply (endpoint_disabled_skips_service (rt := sample_runtime)).
    right. exists "   "%string. split; reflexivity.
  - split; [vm_compute; reflexivity|].
    apply (endpoint_disabled_skips_service (rt := sample_runtime)).
    right. exists (utf8_encode 160 +:+ utf8_encode 133).
    split; vm_compute; reflexivity.
Defined.

(** A key between a no-break space and an ideographic space is returned
    without them; a key of a no-break space and a next line is blank. *)
Lemma api_key_is_stripped_witness :
  get_api_key unicode_padded_settings = Returned "abc"%string /\
  strip "abc" = "abc"%string /\
  is_enabled unicode_padded_settings = true /\
  is_enabled unicode_blank_settings = false /\
  get_api_key unicode_blank_settings = Raised (ValueError not_configured_msg).
Proof.
  assert (Hget : get_api_key unicode_padded_settings = Returned "abc"%string)
    by (vm_compute; reflexivity).
  assert (Hoff : is_enabled unicode_blank_settings = false)
    by (vm_compute; reflexivity).
  destruct (api_key_is_stripped unicode_padded_settings) as (Hkey & Hon & _).
  destruct (Hkey _ Hget) as (key & Hk & Hs & Hne & Hidem).
  split; [exact Hget|]. split; [exact Hidem|]. split.
  - apply Hon. exists key. split; [exact Hk|]. by rewrite <- Hs.
  - split; [exact Hoff|].
    exact (proj2 (proj2 (api_key_is_stripped unicode_blank_settings)) Hoff).
Defined.

(** The one request of a fetch with that key carries ["abc"]. *)
Lemma at_most_one_request_witness :
  let r := fetch_weather (rt := sample_runtime) unicode_padded_settings
             (fun _ => reply_json payload_full) 0 empty_cache 37.75 (-122.5) in
  In unicode_padded_request (requests r) /\
  (length (requests r) <= 1)%nat /\
  exists key, weather_api_key unicode_padded_settings = Some key /\
              strip key = "abc"%string /\
              unicode_padded_request
              = {| url := OPENWEATHER_URL; param_lat := 37.75; param_lon := -122.5;
                   param_appid := strip key; param_units := "metric" |}.
Proof.
  intros r.
  assert (Hin : In unicode_padded_request (requests r))
    by (vm_compute; left; reflexivity).
  destruct (at_most_one_request (rt := sample_runtime) unicode_padded_settings
              (fun _ => reply_json payload_full) 0 empty_cache 37.75 (-122.5))
    as [Hlen Hreq].
  destruct (Hreq _ Hin) as (key & Hk & Hr).
  split; [exact Hin|]. split; [exact Hlen|].
  exists key. split; [exact Hk|]. split; [|exact Hr].
  injection Hk as <-. vm_compute. reflexivity.
Defined.

(** A latitude of 90.5 with a key configured. *)
Lemma endpoint_invalid_coordinates_witness :
  is_enabled sample_settings = true /\
  latitude_in_range 90.5 = false /\
  outcome (endpoint_fetch_weather (rt := sample_runtime) sample_settings
             (fun _ => reply_json payload_full) 60 "2025-12-05T10:30:00Z"
             sample_cache 90.5 0)
    = WeatherServiceDisabledResponse false
        (invalid_latitude_msg (rt := sample_runtime) 90.5).
Proof.
  split; [reflexivity|]. split; [reflexivity|].
  rewrite (proj1 (endpoint_invalid_coordinates (rt := sample_runtime) sample_settings
                    (fun _ => reply_json payload_full) 60 "2025-12-05T10:30:00Z"
                    sample_cache 90.5 0 eq_refl) eq_refl).
  reflexivity.
Defined.

(** A provider that answers with a page of HTML. *)
Lemma undecodable_body_is_disabled_response_witness :
  In sample_request
     (requests (fetch_weather (rt := sample_runtime) sample_settings
                  (fun _ => reply_bad_json "Expecting value: line 1 column 1 (char 0)")
                  0 empty_cache 37.75 (-122.5))) /\
  outcome (endpoint_fetch_weather (rt := sample_runtime) sample_settings
             (fun _ => reply_bad_json "Expecting value: line 1 column 1 (char 0)")
             0 "2025-12-05T10:30:00Z" empty_cache 37.75 (-122.5))
    = WeatherServiceDisabledResponse false "Expecting value: line 1 column 1 (char 0)".
Proof.
  assert (Hin : In sample_request
     (requests (fetch_weather (rt := sample_runtime) sample_settings
                  (fun _ => reply_bad_json "Expecting value: line 1 column 1 (char 0)")
                  0 empty_cache 37.75 (-122.5)))).
  { vm_compute. left. reflexivity. }
  split; [exact Hin|].
  destruct (undecodable_body_is_disabled_response (rt := sample_runtime) _ _ _
              "2025-12-05T10:30:00Z" _ _ _ sample_request
              "Expecting value: line 1 column 1 (char 0)" Hin eq_refl)
    as (_ & _ & ->).
  reflexivity.
Defined.

(** A request body with a float latitude and an int longitude. *)
Lemma validated_request_passes_range_checks_witness :
  RequestSchema.WeatherFetchRequest_init (rt := sample_runtime) request_body
    = Returned {| RequestSchema.latitude := 37.75; RequestSchema.longitude := -122 |} /\
  latitude_in_range 37.75 = true /\
  longitude_in_range (-122) = true.
Proof.
  assert (Hq : RequestSchema.WeatherFetchRequest_init (rt := sample_runtime) request_body
    = Returned {| RequestSchema.latitude := 37.75; RequestSchema.longitude := -122 |})
    by (vm_compute; reflexivity).
  split; [exact Hq|].
  destruct (validated_request_passes_range_checks (rt := sample_runtime) _ _
              sample_settings (fun _ => reply_failed "down") 0 empty_cache Hq)
    as (Hlat & Hlon & _).
  split; [exact Hlat | exact Hlon].
Defined.

(** The empty ["weather"] list, seen from the endpoint. *)
Lemma parse_exception_is_http_500_witness :
  In sample_request
     (requests (fetch_weather (rt := sample_runtime) sample_settings
                  (fun _ => reply_json payload_weather_empty) 0 empty_cache
                  37.75 (-122.5))) /\
  http_status
    (outcome (endpoint_fetch_weather (rt := sample_runtime) sample_settings
                (fun _ => reply_json payload_weather_empty) 0 "2025-12-05T10:30:00Z"
                empty_cache 37.75 (-122.5))) = 500.
Proof.
  assert (Hin : In sample_request
     (requests (fetch_weather (rt := sample_runtime) sample_settings
                  (fun _ => reply_json payload_weather_empty) 0 empty_cache
                  37.75 (-122.5)))).
  { vm_compute. left. reflexivity. }
  split; [exact Hin|].
  destruct (parse_exception_is_http_500 (rt := sample_runtime) _ _ _
              "2025-12-05T10:30:00Z" _ _ _ sample_request payload_weather_empty
              IndexError Hin eq_refl) as (_ & _ & ->); [vm_compute; reflexivity|].
  reflexivity.
Defined.

(** Two calls of the endpoint, 30 minutes apart, the second while the
    provider is down. *)
Lemma endpoint_second_call_is_served_from_cache_witness :
  outcome (endpoint_fetch_weather (rt := sample_runtime) sample_settings
             (fun _ => reply_json payload_full) 0 "2025-12-05T10:30:00Z"
             empty_cache 37.75 (-122.5))
    = WeatherFetchResponse reading_full "openweather" "2025-12-05T10:30:00Z" /\
  outcome (endpoint_fetch_weather (rt := sample_runtime) sample_settings
             (fun _ => reply_failed "down") 1800 "2025-12-05T11:00:00Z"
             (cache_after (endpoint_fetch_weather (rt := sample_runtime) sample_settings
                             (fun _ => reply_json payload_full) 0 "2025-12-05T10:30:00Z"
                             empty_cache 37.75 (-122.5)))
             37.7490234375 (-122.5009765625))
    = WeatherFetchResponse reading_full "openweather" "2025-12-05T11:00:00Z".
Proof.
  assert (Hfirst : outcome (endpoint_fetch_weather (rt := sample_runtime) sample_settings
             (fun _ => reply_json payload_full) 0 "2025-12-05T10:30:00Z"
             empty_cache 37.75 (-122.5))
    = WeatherFetchResponse reading_full "openweather" "2025-12-05T10:30:00Z")
    by (vm_compute; reflexivity).
  split; [exact Hfirst|].
  rewrite (endpoint_second_call_is_served_from_cache (rt := sample_runtime)
             sample_settings (fun _ => reply_json payload_full)
             (fun _ => reply_failed "down") 0 1800 "2025-12-05T10:30:00Z"
             "2025-12-05T11:00:00Z" empty_cache 37.75 (-122.5)
             37.7490234375 (-122.5009765625) reading_full "openweather"
             "2025-12-05T10:30:00Z" Hfirst).
  - reflexivity.
  - vm_compute. discriminate.
  - vm_compute. reflexivity.
  - vm_compute. reflexivity.
  - vm_compute. reflexivity.
  - vm_compute. discriminate.
Defined.

(** A table of two rows in which the second was created first. *)
Lemma upgrade_promotes_the_strictly_earliest_witness :
  NoDup (map Migration.id [sample_row "u2" 20; sample_row "u1" 10]) /\
  In {| Migration.row := sample_row "u1" 10; Migration.role := "admin" |}
     (Migration.upgrade true [sample_row "u2" 20; sample_row "u1" 10]).
Proof.
  assert (Hnd : NoDup (map Migration.id [sample_row "u2" 20; sample_row "u1" 10])).
  { simpl. apply NoDup_cons. split.
    - intros Hin%list_elem_of_In. simpl in Hin. intuition discriminate.
    - apply NoDup_cons. split; [|apply NoDup_nil_2].
      intros Hin%list_elem_of_In. simpl in Hin. intuition discriminate. }
  split; [exact Hnd|].
  apply (MigrationExtras.upgrade_promotes_the_strictly_earliest true
           [sample_row "u2" 20; sample_row "u1" 10] (sample_row "u1" 10) Hnd).
  - right. by left.
  - intros r [<-|[<-|[]]] Hne; simpl in *; [lia | done].
Defined.

(** The entry saved for (37.75, -122.5), looked up one minute later and
    at the time it was saved, and a call of [fetch_weather] that finds it.
    An entry whose pressure is the float 1e19 is a miss, and the call goes
    to the provider. *)
Lemma cache_hit_characterised_witness :
  _get_from_cache (rt := sample_runtime) 60 sample_cache 37.75 (-122.5)
    = Some reading_full /\
  (exists e kv result_data,
     sample_cache !! ("weather"%string,
                      (_get_cache_key (rt := sample_runtime) 37.75 (-122.5)).1,
                      (_get_cache_key (rt := sample_runtime) 37.75 (-122.5)).2) = Some e /\
     60 <= expires_at e /\
     value e = JObj kv /\
     dict_get "result" kv = Some result_data /\
     WeatherData_splat (rt := sample_runtime) result_data = Returned reading_full) /\
  _get_from_cache (rt := sample_runtime) 0 sample_cache 37.75 (-122.5)
    = Some reading_full /\
  requests (fetch_weather (rt := sample_runtime) sample_settings
              (fun _ => reply_failed "down") 60 sample_cache 37.75 (-122.5)) = [] /\
  outcome (fetch_weather (rt := sample_runtime) sample_settings
             (fun _ => reply_failed "down") 60 sample_cache 37.75 (-122.5))
    = Returned (Some reading_full) /\
  validate_int (rt := sample_runtime) (JFloat 1e19) = None /\
  _get_from_cache (rt := sample_runtime) 60 cache_with_huge_pressure 37.75 (-122.5)
    = None /\
  requests (fetch_weather (rt := sample_runtime) sample_settings
              (fun _ => reply_failed "down") 60 cache_with_huge_pressure
              37.75 (-122.5)) <> [].
Proof.
  assert (Hhit : _get_from_cache (rt := sample_runtime) 60 sample_cache 37.75 (-122.5)
                 = Some reading_full) by (vm_compute; reflexivity).
  assert (Hmiss : _get_from_cache (rt := sample_runtime) 60 cache_with_huge_pressure
                    37.75 (-122.5) = None) by (vm_compute; reflexivity).
  destruct (cache_hit_characterised (rt := sample_runtime) sample_settings
              (fun _ => reply_failed "down") 60 sample_cache 37.75 (-122.5))
    as (Hchar & _ & Hearlier & Hfetch).
  assert (Hlat : latitude_in_range 37.75 = true) by (vm_compute; reflexivity).
  assert (Hlon : longitude_in_range (-122.5) = true) by (vm_compute; reflexivity).
  assert (Hen : is_enabled sample_settings = true) by (vm_compute; reflexivity).
  destruct (Hfetch Hlat Hlon Hen) as [Hspared Hout].
  split; [exact Hhit|]. split; [exact (proj1 (Hchar _) Hhit)|].
  split; [apply (Hearlier 0 reading_full); [lia|exact Hhit]|].
  split; [apply Hspared; eauto|]. split; [by apply Hout|].
  split; [vm_compute; reflexivity|]. split; [exact Hmiss|].
  destruct (cache_hit_characterised (rt := sample_runtime) sample_settings
              (fun _ => reply_failed "down") 60 cache_with_huge_pressure 37.75 (-122.5))
    as (_ & _ & _ & Hfetch').
  destruct (Hfetch' Hlat Hlon Hen) as [Hspared' _].
  intros Hnone. apply Hspared' in Hnone as (w & Hw). congruence.
Defined.
